(** * Downstream heads of Fast-R2D2: [model/fast_r2d2_downstream.py]

    A shallow embedding of the two classification heads
    [FastR2D2Classification] and [FastR2D2CrossSentence] and of the tensor
    operations the file performs itself ([view], [unsqueeze], [cat],
    slicing, [softmax]).

    The encoder, the parser, [force_encode], the classifier layers and
    [F.cross_entropy] are collaborators: fields of records that thread an
    abstract world and may fail.  [forward] runs in a monad that carries
    this world, a log of the collaborator calls (arguments and outcome) and
    the exception raised, if any; statements about what is called, with
    what and how often are statements about the log.

    Tensors are a shape and the elements in row-major order.  Floating
    point numbers are idealised as real numbers.

    Layout: the embedding, stand-ins for the collaborators, the vocabulary
    of the statements, then lemmas on blocks of lists, views, pooling,
    runs, exceptions and logs, and the theorems. *)

From Stdlib Require Import Reals Lra String ZArith Lia QArith Qreals.
From stdpp Require Import base option list gmap.

Local Open Scope string_scope.
Local Open Scope nat_scope.
Local Open Scope list_scope.

(** ** Tensors *)

(** A contiguous tensor: its shape and its elements in row-major order. *)
Record tensor (A : Type) : Type := Tensor { shape : list nat; data : list A }.
Arguments Tensor {A} _ _.
Arguments shape {A} _.
Arguments data {A} _.

Definition prod_list (l : list nat) : nat := foldr Nat.mul 1 l.

(** [t.numel()], as the shape gives it. *)
Definition numel {A} (t : tensor A) : nat := prod_list (shape t).

(** What every tensor torch builds satisfies. *)
Definition well_formed {A} (t : tensor A) : Prop := length (data t) = numel t.

(** Row-major offset of a multi-index, [None] when it is out of range or of
    the wrong rank. *)
Fixpoint ravel_from (acc : nat) (shp idx : list nat) : option nat :=
  match shp, idx with
  | [], [] => Some acc
  | d :: shp', i :: idx' =>
      if i <? d then ravel_from (acc * d + i) shp' idx' else None
  | _, _ => None
  end.

Definition ravel (shp idx : list nat) : option nat := ravel_from 0 shp idx.

(** [t[i0, i1, ...]] with one index per dimension. *)
Definition get {A} (t : tensor A) (idx : list nat) : option A :=
  match ravel (shape t) idx with
  | Some o => data t !! o
  | None => None
  end.

(** ** Exceptions and outcomes *)

Inductive error : Type :=
| Exception_ (msg : string)      (* [raise Exception(msg)] of this file *)
| RuntimeError (msg : string)    (* torch: shapes that do not fit *)
| IndexError (msg : string)      (* torch / tuple indexing out of range *)
| KeyError (key : string)        (* a dict without the key *)
| Propagated (msg : string).     (* raised inside a collaborator *)

Inductive result (A : Type) : Type :=
| Ok (a : A)
| Raise (e : error).
Arguments Ok {A} _.
Arguments Raise {A} _.

(** What a collaborator call gives back. *)
Inductive outcome (A : Type) : Type :=
| Returned (a : A)
| Failed (msg : string).
Arguments Returned {A} _.
Arguments Failed {A} _.

(** ** Tensor operations used by the file *)

(** [t.shape[-1]] *)
Definition shape_last {A} (t : tensor A) : result nat :=
  match last (shape t) with
  | Some d => Ok d
  | None => Raise (IndexError "tuple index out of range")
  end.

(** [t.shape[0]] *)
Definition shape_first {A} (t : tensor A) : result nat :=
  match shape t with
  | d :: _ => Ok d
  | [] => Raise (IndexError "tuple index out of range")
  end.

(** [t.view(shp)]: same storage, new shape; the sizes must agree. *)
Definition view {A} (t : tensor A) (shp : list nat) : result (tensor A) :=
  if numel t =? prod_list shp then Ok (Tensor shp (data t))
  else Raise (RuntimeError "shape is invalid for input size").

(** [t.view(-1, d)]: the first dimension is inferred. *)
Definition view_infer {A} (t : tensor A) (d : nat) : result (tensor A) :=
  if d =? 0 then
    if numel t =? 0
    then Raise (RuntimeError "the unspecified dimension size -1 can be any value and is ambiguous")
    else Raise (RuntimeError "shape is invalid for input size")
  else if numel t mod d =? 0 then Ok (Tensor [numel t / d; d] (data t))
  else Raise (RuntimeError "shape is invalid for input size").

(** [torch.zeros([sz], dtype=torch.long).fill_(v)] *)
Definition full (sz : nat) (v : Z) : tensor Z := Tensor [sz] (replicate sz v).

(** [t.unsqueeze(1)] *)
Definition unsqueeze1 {A} (t : tensor A) : result (tensor A) :=
  match shape t with
  | n :: rest => Ok (Tensor (n :: 1 :: rest) (data t))
  | [] => Raise (IndexError "Dimension out of range")
  end.

(** The list cut in consecutive blocks of [k] elements, [n] of them. *)
Fixpoint chunks {A} (n k : nat) (l : list A) : list (list A) :=
  match n with
  | O => []
  | S n' => take k l :: chunks n' k (drop k l)
  end.

(** [torch.cat([a, b], dim=1)]: same rank, same sizes but in dimension 1;
    a tensor of shape [(0,)] is skipped. *)
Definition cat1 {A} (a b : tensor A) : result (tensor A) :=
  match shape a, shape b with
  | _, [O] => Ok a
  | [O], _ => Ok b
  | n :: p :: ra, n' :: q :: rb =>
      if decide (n = n' /\ ra = rb) then
        Ok (Tensor (n :: (p + q) :: ra)
              (concat (zip_with app (chunks n (p * prod_list ra) (data a))
                                    (chunks n (q * prod_list ra) (data b)))))
      else Raise (RuntimeError "Sizes of tensors must match except in dimension 1")
  | _, _ => Raise (IndexError "Dimension out of range")
  end.

(** [t[:, 0, :]] *)
Definition select1_0 {A} (t : tensor A) : result (tensor A) :=
  match shape t with
  | n :: p :: d :: rest =>
      if p =? 0 then Raise (IndexError "index 0 is out of bounds for dimension 1 with size 0")
      else Ok (Tensor (n :: d :: rest)
                 (concat (take (prod_list (d :: rest))
                            <$> chunks n (p * prod_list (d :: rest)) (data t))))
  | _ => Raise (IndexError "too many indices for tensor")
  end.

(** [F.softmax(t, dim=-1)] over the reals: every block of the last dimension
    is exponentiated and divided by its sum. *)
Definition sum_R (l : list R) : R := foldr Rplus 0%R l.

Definition softmax_row (l : list R) : list R :=
  (fun x => (exp x / sum_R (exp <$> l))%R) <$> l.

Definition last_dim (shp : list nat) : nat := default 1 (last shp).

Definition softmax (t : tensor R) : tensor R :=
  let c := last_dim (shape t) in
  Tensor (shape t)
    (concat (softmax_row <$> chunks (length (data t) / c) c (data t))).

(** Block [i] of the last dimension: the entries of example [i]. *)
Definition example_row {A} (t : tensor A) (i : nat) : list A :=
  take (last_dim (shape t)) (drop (i * last_dim (shape t)) (data t)).


(** ** Data model *)

(** [t.root.best_node.cache_id]: a table, the cell at its root, the node the
    encoder chose there, and that node's key in the tensor cache. *)
Record Node : Type := { cache_id : Z }.
Record Cell : Type := { best_node : Node }.
Record Table : Type := { root : Cell }.

(** Modelled from the spec: [CacheSlots] of [r2d2_common], of which only the
    name [E_IJ] is read here; the other slots are left unnamed. *)
Inductive CacheSlots : Type :=
| E_IJ
| OTHER_SLOT (k : nat).

(** Modelled from the spec: the tensor cache is a mapping from cache id to a
    fixed set of named vector slots, every vector of the hidden size. *)
Record TensorCache : Type := {
  hidden_size : nat;
  cells : gmap Z (CacheSlots -> list R)
}.

(** Modelled from the spec: [TensorCache.gather], a batched read by an
    ordered list of ids and a list of slot names, returning one tensor per
    requested slot stacked over the ids in input order.  An id that was
    never populated fails the read. *)
Definition gather (c : TensorCache) (ids : list Z) (slots : list CacheSlots)
  : result (list (tensor R)) :=
  match mapM (fun i => cells c !! i) ids with
  | Some entries =>
      Ok ((fun s => Tensor [length ids; hidden_size c]
                      (concat ((fun e => e s) <$> entries))) <$> slots)
  | None => Raise (IndexError "cache id is not populated")
  end.

(** [sampled_trees], a dict with the keys the file reads. *)
Record SampledTrees : Type := {
  item_split_masks : option (tensor Z);
  item_split_points : option (tensor Z)
}.

(** The dict the encoder returns; a missing key is [None]. *)
Record Results : Type := {
  item_tables : option (list Table);
  item_tensor_cache : option TensorCache;
  item_loss : option R;
  item_sampled_trees : option SampledTrees
}.

(** Keyword arguments of the encoder call; [None] is a keyword left out. *)
Record R2D2Kwargs : Type := {
  merge_trajectories : option (option (list (list Z)));
  sample_trees : option Z;
  recover_tree : option bool;
  keep_tensor_cache : option bool;
  lm_loss : option bool
}.

Definition AtomSpans : Type := list (list (list Z)).

(** What [forward] returns: a scalar loss when training, class
    probabilities at inference. *)
Inductive output : Type :=
| Loss (l : R)
| Probs (p : tensor R).

(** ** The log of collaborator calls *)

Inductive event : Type :=
| EvParser (input_ids attention_mask : tensor Z) (atom_spans : option AtomSpans)
    (out : outcome (list (list Z)))
| EvParserKL (input_ids attention_mask : tensor Z) (masks points : tensor Z)
    (out : outcome R)
| EvEncoder (input_ids attention_mask : tensor Z) (kw : R2D2Kwargs)
    (out : outcome Results)
| EvGather (ids : list Z) (slots : list CacheSlots)
| EvForceEncode (input_ids attention_mask : tensor Z) (atom_spans : option AtomSpans)
    (out : outcome (tensor R))
| EvClassifier (x : tensor R) (out : outcome (tensor R))
| EvEmbedding (ids : tensor Z) (out : outcome (tensor R))
| EvTreeDecoder (x : tensor R) (out : outcome (tensor R)).

Definition is_encoder_call (e : event) : bool :=
  match e with EvEncoder _ _ _ _ => true | _ => false end.

Definition is_force_encode_call (e : event) : bool :=
  match e with EvForceEncode _ _ _ _ => true | _ => false end.

Definition is_parser_call (e : event) : bool :=
  match e with EvParser _ _ _ _ | EvParserKL _ _ _ _ _ => true | _ => false end.

Fixpoint count (p : event -> bool) (l : list event) : nat :=
  match l with
  | [] => 0
  | e :: l' => (if p e then 1 else 0) + count p l'
  end.

(** ** The monad: collaborator state, log, exceptions *)

Record state (world : Type) : Type := State { world_of : world; trace : list event }.
Arguments State {world} _ _.
Arguments world_of {world} _.
Arguments trace {world} _.

Definition M (world A : Type) : Type := state world -> result A * state world.

Definition ret {world A} (a : A) : M world A := fun s => (Ok a, s).

Definition raise {world A} (e : error) : M world A := fun s => (Raise e, s).

Definition bind {world A B} (m : M world A) (k : A -> M world B) : M world B :=
  fun s =>
    match m s with
    | (Ok a, s') => k a s'
    | (Raise e, s') => (Raise e, s')
    end.

Notation "x <- m ;; k" := (bind m (fun x => k))
  (at level 100, m at next level, right associativity).

(** A pure operation that may raise. *)
Definition lift {world A} (r : result A) : M world A := fun s => (r, s).

(** A collaborator call: run it on the world, log it with its outcome. *)
Definition call {world A} (f : world -> outcome A * world) (ev : outcome A -> event)
  : M world A :=
  fun s =>
    let '(o, w') := f (world_of s) in
    let s' := State w' (trace s ++ [ev o]) in
    match o with
    | Returned a => (Ok a, s')
    | Failed msg => (Raise (Propagated msg), s')
    end.

Definition log {world} (ev : event) : M world unit :=
  fun s => (Ok tt, State (world_of s) (trace s ++ [ev])).

(** [d[key]] *)
Definition getitem {world A} (key : string) (v : option A) : M world A :=
  match v with
  | Some a => ret a
  | None => raise (KeyError key)
  end.

(** [l[0]] *)
Definition item0 {world A} (l : list A) : M world A :=
  match l with
  | a :: _ => ret a
  | [] => raise (IndexError "list index out of range")
  end.

(** ** Collaborators *)

Record TopdownParser (world : Type) : Type := {
  (* [parser(input_ids, attention_mask, atom_spans=...)] *)
  parse : tensor Z -> tensor Z -> option AtomSpans ->
          world -> outcome (list (list Z)) * world;
  (* [parser(input_ids, attention_mask, split_masks=..., split_points=...)] *)
  parse_kl : tensor Z -> tensor Z -> tensor Z -> tensor Z ->
             world -> outcome R * world
}.
Arguments parse {world} _ _ _ _ _.
Arguments parse_kl {world} _ _ _ _ _ _.

Record R2D2Cuda (world : Type) : Type := {
  encode : tensor Z -> tensor Z -> R2D2Kwargs -> world -> outcome Results * world;
  embedding : tensor Z -> world -> outcome (tensor R) * world;
  tree_decoder : tensor R -> world -> outcome (tensor R) * world
}.
Arguments encode {world} _ _ _ _ _.
Arguments embedding {world} _ _ _.
Arguments tree_decoder {world} _ _ _.

(** What the file imports: [force_encode] of [fast_r2d2_inference] and
    [F.cross_entropy]. *)
Record Imports (world : Type) : Type := {
  force_encode : TopdownParser world -> R2D2Cuda world ->
                 tensor Z -> tensor Z -> option AtomSpans ->
                 world -> outcome (tensor R) * world;
  cross_entropy : tensor R -> tensor Z -> outcome R
}.
Arguments force_encode {world} _ _ _ _ _ _ _.
Arguments cross_entropy {world} _ _ _.

Definition lift_outcome {world A} (o : outcome A) : M world A :=
  match o with
  | Returned a => ret a
  | Failed msg => raise (Propagated msg)
  end.

(** The loop [for t in tables: root_cache_ids.append(t.root.best_node.cache_id)]. *)
Definition root_cache_ids (tables : list Table) : list Z :=
  fold_left (fun acc t => acc ++ [cache_id (best_node (root t))]) tables [].

(** The pooling step the four branches share:
    [tensor_cache.gather(root_cache_ids, [CacheSlots.E_IJ])[0]]. *)
Definition root_vectors {world} (tables : list Table) (tensor_cache : TensorCache)
  : M world (tensor R) :=
  let ids := root_cache_ids tables in
  _ <- log (EvGather ids [E_IJ]) ;;
  gathered <- lift (gather tensor_cache ids [E_IJ]) ;;
  item0 gathered.

Definition config_error : error :=
  Exception_ "Force encoding is not supported when disable_parser == True".

(** ** [class FastR2D2Classification] *)

Module FastR2D2Classification.

Record t (world : Type) : Type := {
  r2d2 : R2D2Cuda world;
  parser : TopdownParser world;
  (* [nn.Sequential(Linear, GELU, Dropout, Linear)] *)
  classifier : tensor R -> world -> outcome (tensor R) * world;
  disable_parser : bool
}.
Arguments r2d2 {world} _.
Arguments parser {world} _.
Arguments classifier {world} _ _ _.
Arguments disable_parser {world} _.

Definition forward {world} (env : Imports world) (self : t world)
    (input_ids attention_mask : tensor Z) (num_samples : Z)
    (atom_spans : option AtomSpans) (labels : option (tensor Z))
    (force_encoding : bool) : M world output :=
  match labels with
  | Some labels =>
      (* training *)
      s_indices <-
        (if negb (disable_parser self) then
           s <- call (parse (parser self) input_ids attention_mask atom_spans)
                     (EvParser input_ids attention_mask atom_spans) ;;
           ret (Some s)
         else ret None) ;;
      let kw := {| merge_trajectories := Some s_indices;
                   sample_trees := Some num_samples;
                   recover_tree := Some true;
                   keep_tensor_cache := Some true;
                   lm_loss := None |} in
      results <- call (encode (r2d2 self) input_ids attention_mask kw)
                      (EvEncoder input_ids attention_mask kw) ;;
      tables <- getitem "tables" (item_tables results) ;;
      tensor_cache <- getitem "tensor_cache" (item_tensor_cache results) ;;
      e_ij <- root_vectors tables tensor_cache ;;
      logits <- call (classifier self e_ij) (EvClassifier e_ij) ;;
      loss <- lift_outcome (cross_entropy env logits labels) ;;
      bilm_loss <- getitem "loss" (item_loss results) ;;
      kl_loss <-
        (if negb (disable_parser self) then
           sampled_trees <- getitem "sampled_trees" (item_sampled_trees results) ;;
           masks <- getitem "split_masks" (item_split_masks sampled_trees) ;;
           points <- getitem "split_points" (item_split_points sampled_trees) ;;
           call (parse_kl (parser self) input_ids attention_mask masks points)
                (EvParserKL input_ids attention_mask masks points)
         else ret 0%R) ;;
      (* force encoding *)
      e_ij <- call (force_encode env (parser self) (r2d2 self)
                      input_ids attention_mask atom_spans)
                   (EvForceEncode input_ids attention_mask atom_spans) ;;
      logits <- call (classifier self e_ij) (EvClassifier e_ij) ;;
      force_encoding_loss <- lift_outcome (cross_entropy env logits labels) ;;
      ret (Loss (force_encoding_loss + loss + kl_loss + bilm_loss)%R)
  | None =>
      (* two modes for inference *)
      e_ij <-
        (if negb force_encoding then
           s_indices <-
             (if negb (disable_parser self) then
                s <- call (parse (parser self) input_ids attention_mask atom_spans)
                          (EvParser input_ids attention_mask atom_spans) ;;
                ret (Some s)
              else ret None) ;;
           let kw := {| merge_trajectories := Some s_indices;
                        sample_trees := None;
                        recover_tree := Some true;
                        keep_tensor_cache := Some true;
                        lm_loss := Some false |} in
           results <- call (encode (r2d2 self) input_ids attention_mask kw)
                           (EvEncoder input_ids attention_mask kw) ;;
           tables <- getitem "tables" (item_tables results) ;;
           tensor_cache <- getitem "tensor_cache" (item_tensor_cache results) ;;
           root_vectors tables tensor_cache
         else
           if disable_parser self then raise config_error
           else call (force_encode env (parser self) (r2d2 self)
                        input_ids attention_mask atom_spans)
                     (EvForceEncode input_ids attention_mask atom_spans)) ;;
      logits <- call (classifier self e_ij) (EvClassifier e_ij) ;;
      ret (Probs (softmax logits))
  end.

End FastR2D2Classification.

(** ** [class FastR2D2CrossSentence] *)

Module FastR2D2CrossSentence.

Record t (world : Type) : Type := {
  r2d2 : R2D2Cuda world;
  parser : TopdownParser world;
  classifier : tensor R -> world -> outcome (tensor R) * world;
  (* [config.pairwise_task_id] *)
  task_id : Z;
  disable_parser : bool
}.
Arguments r2d2 {world} _.
Arguments parser {world} _.
Arguments classifier {world} _ _ _.
Arguments task_id {world} _.
Arguments disable_parser {world} _.

Definition pairwise_encoding {world} (self : t world) (e_ij : tensor R)
  : M world (tensor R) :=
  sz <- lift (shape_first e_ij) ;;
  let mask_ids := full sz (task_id self) in
  mask_embedding <- call (embedding (r2d2 self) mask_ids) (EvEmbedding mask_ids) ;;
  unsqueezed <- lift (unsqueeze1 mask_embedding) ;;
  input_embedding <- lift (cat1 unsqueezed e_ij) ;;
  outputs <- call (tree_decoder (r2d2 self) input_embedding)
                  (EvTreeDecoder input_embedding) ;;
  mask_hidden <- lift (select1_0 outputs) ;;
  call (classifier self mask_hidden) (EvClassifier mask_hidden).

(** [t.view(-1, t.shape[-1])] *)
Definition flatten_pairs {A} (x : tensor A) : result (tensor A) :=
  match shape_last x with
  | Ok d => view_infer x d
  | Raise e => Raise e
  end.

(** [e_ij.view(e_ij.shape[0] // 2, 2, e_ij.shape[-1])] *)
Definition pair_view {A} (e_ij : tensor A) : result (tensor A) :=
  match shape_first e_ij with
  | Ok n =>
      match shape_last e_ij with
      | Ok d => view e_ij [n / 2; 2; d]
      | Raise e => Raise e
      end
  | Raise e => Raise e
  end.

Definition forward {world} (env : Imports world) (self : t world)
    (input_ids attention_mask : tensor Z) (num_samples : Z)
    (atom_spans : option AtomSpans) (labels : option (tensor Z))
    (force_encoding : bool) : M world output :=
  input_ids <- lift (flatten_pairs input_ids) ;;
  attention_mask <- lift (flatten_pairs attention_mask) ;;
  match labels with
  | Some labels =>
      (* training *)
      s_indices <-
        (if negb (disable_parser self) then
           s <- call (parse (parser self) input_ids attention_mask atom_spans)
                     (EvParser input_ids attention_mask atom_spans) ;;
           ret (Some s)
         else ret None) ;;
      let kw := {| merge_trajectories := Some s_indices;
                   sample_trees := Some num_samples;
                   recover_tree := Some true;
                   keep_tensor_cache := Some true;
                   lm_loss := Some true |} in
      results <- call (encode (r2d2 self) input_ids attention_mask kw)
                      (EvEncoder input_ids attention_mask kw) ;;
      tables <- getitem "tables" (item_tables results) ;;
      tensor_cache <- getitem "tensor_cache" (item_tensor_cache results) ;;
      sampled_trees <- getitem "sampled_trees" (item_sampled_trees results) ;;
      e_ij <- root_vectors tables tensor_cache ;;
      pairs <- lift (pair_view e_ij) ;;
      logits <- pairwise_encoding self pairs ;;
      loss <- lift_outcome (cross_entropy env logits labels) ;;
      bilm_loss <- getitem "loss" (item_loss results) ;;
      masks <- getitem "split_masks" (item_split_masks sampled_trees) ;;
      points <- getitem "split_points" (item_split_points sampled_trees) ;;
      kl_loss <- call (parse_kl (parser self) input_ids attention_mask masks points)
                      (EvParserKL input_ids attention_mask masks points) ;;
      (* force encoding *)
      e_ij <- call (force_encode env (parser self) (r2d2 self)
                      input_ids attention_mask atom_spans)
                   (EvForceEncode input_ids attention_mask atom_spans) ;;
      pairs <- lift (pair_view e_ij) ;;
      logits <- pairwise_encoding self pairs ;;
      force_encoding_loss <- lift_outcome (cross_entropy env logits labels) ;;
      ret (Loss (force_encoding_loss + loss + kl_loss + bilm_loss)%R)
  | None =>
      (* two modes for inference *)
      e_ij <-
        (if negb force_encoding then
           s_indices <-
             (if negb (disable_parser self) then
                s <- call (parse (parser self) input_ids attention_mask atom_spans)
                          (EvParser input_ids attention_mask atom_spans) ;;
                ret (Some s)
              else ret None) ;;
           let kw := {| merge_trajectories := Some s_indices;
                        sample_trees := None;
                        recover_tree := Some true;
                        keep_tensor_cache := Some true;
                        lm_loss := Some false |} in
           results <- call (encode (r2d2 self) input_ids attention_mask kw)
                           (EvEncoder input_ids attention_mask kw) ;;
           tables <- getitem "tables" (item_tables results) ;;
           tensor_cache <- getitem "tensor_cache" (item_tensor_cache results) ;;
           root_vectors tables tensor_cache
         else
           if disable_parser self then raise config_error
           else call (force_encode env (parser self) (r2d2 self)
                        input_ids attention_mask atom_spans)
                     (EvForceEncode input_ids attention_mask atom_spans)) ;;
      pairs <- lift (pair_view e_ij) ;;
      logits <- pairwise_encoding self pairs ;;
      ret (Probs (softmax logits))
  end.

End FastR2D2CrossSentence.

(** ** Stand-ins for the collaborators

    Simple collaborators on which the models run: the world counts the
    calls, the encoder returns two tables over a two-cell cache. *)

Module Stub.

Definition tick {A} (a : A) : nat -> outcome A * nat :=
  fun w => (Returned a, S w).

Definition the_cache : TensorCache :=
  {| hidden_size := 2;
     cells := <[ 7%Z := fun _ => [1%R; 2%R] ]>
                (<[ 3%Z := fun _ => [3%R; 4%R] ]> ∅) |}.

Definition the_tables : list Table :=
  [ {| root := {| best_node := {| cache_id := 7 |} |} |};
    {| root := {| best_node := {| cache_id := 3 |} |} |} ].

Definition the_samples : SampledTrees :=
  {| item_split_masks := Some (Tensor [1] [1%Z]);
     item_split_points := Some (Tensor [1] [0%Z]) |}.

Definition the_results : Results :=
  {| item_tables := Some the_tables;
     item_tensor_cache := Some the_cache;
     item_loss := Some 3%R;
     item_sampled_trees := Some the_samples |}.

Definition the_parser : TopdownParser nat :=
  {| parse := fun _ _ _ => tick [[0%Z]];
     parse_kl := fun _ _ _ _ => tick 5%R |}.

Definition the_r2d2 : R2D2Cuda nat :=
  {| encode := fun _ _ _ => tick the_results;
     embedding := fun ids => tick (Tensor [length (data ids); 2]
                                     (replicate (length (data ids) * 2) 0%R));
     tree_decoder := fun x => tick x |}.

Definition the_imports : Imports nat :=
  {| force_encode := fun _ _ _ _ _ => tick (Tensor [2; 2] [5%R; 6%R; 7%R; 8%R]);
     cross_entropy := fun _ _ => Returned 2%R |}.

Definition single (disabled : bool) : FastR2D2Classification.t nat :=
  {| FastR2D2Classification.r2d2 := the_r2d2;
     FastR2D2Classification.parser := the_parser;
     FastR2D2Classification.classifier := fun x => tick x;
     FastR2D2Classification.disable_parser := disabled |}.

Definition cross (disabled : bool) : FastR2D2CrossSentence.t nat :=
  {| FastR2D2CrossSentence.r2d2 := the_r2d2;
     FastR2D2CrossSentence.parser := the_parser;
     FastR2D2CrossSentence.classifier := fun x => tick x;
     FastR2D2CrossSentence.task_id := 9;
     FastR2D2CrossSentence.disable_parser := disabled |}.

(** A batch of two sentences of three tokens, and one pair of them. *)
Definition ids2 : tensor Z := Tensor [2; 3] [1; 2; 3; 4; 5; 6]%Z.
Definition mask2 : tensor Z := Tensor [2; 3] [1; 1; 1; 1; 1; 1]%Z.
Definition ids_pair : tensor Z := Tensor [1; 2; 3] [1; 2; 3; 4; 5; 6]%Z.
Definition mask_pair : tensor Z := Tensor [1; 2; 3] [1; 1; 1; 1; 1; 1]%Z.
Definition labels2 : tensor Z := Tensor [2] [0; 1]%Z.
Definition labels1 : tensor Z := Tensor [1] [0%Z].

Definition pooled : tensor R := Tensor [2; 2] [1%R; 2%R; 3%R; 4%R].

Definition start : state nat := State 0 [].

End Stub.


(** ** Vocabulary of the statements *)

(** The events of the guidance call: one parser call when [s_indices] is a
    trajectory, none when it is [None]. *)
Definition guide_events (input_ids attention_mask : tensor Z)
    (atom_spans : option AtomSpans) (s_indices : option (list (list Z)))
  : list event :=
  match s_indices with
  | Some s => [EvParser input_ids attention_mask atom_spans (Returned s)]
  | None => []
  end.

(** [e] is the pooled matrix of the encoder's result: the [E_IJ] slot
    gathered at the root ids of its tables. *)
Definition pooled_from (results : Results) (ids : list Z) (e : tensor R) : Prop :=
  exists tables cache,
    item_tables results = Some tables /\
    item_tensor_cache results = Some cache /\
    ids = root_cache_ids tables /\
    gather cache ids [E_IJ] = Ok [e].

(** The sampled split masks and points of the encoder's result. *)
Definition samples_of (results : Results) (masks points : tensor Z) : Prop :=
  exists st,
    item_sampled_trees results = Some st /\
    item_split_masks st = Some masks /\
    item_split_points st = Some points.

(** The three calls of the pairwise combiner on [pairs], ending in the
    classifier call that returns [logits]. *)
Definition pairwise_events (task : Z) (pairs logits : tensor R) (evs : list event)
  : Prop :=
  exists sz marker unsqueezed triple outputs fused,
    shape_first pairs = Ok sz /\
    unsqueeze1 marker = Ok unsqueezed /\
    cat1 unsqueezed pairs = Ok triple /\
    select1_0 outputs = Ok fused /\
    evs = [EvEmbedding (full sz task) (Returned marker);
           EvTreeDecoder triple (Returned outputs);
           EvClassifier fused (Returned logits)].



(** Either of the two heads, and what they share. *)
Inductive head (world : Type) : Type :=
| Single (self : FastR2D2Classification.t world)
| Cross (self : FastR2D2CrossSentence.t world).
Arguments Single {world} _.
Arguments Cross {world} _.

Definition forward_of {world} (env : Imports world) (h : head world)
  : tensor Z -> tensor Z -> Z -> option AtomSpans -> option (tensor Z) -> bool ->
    M world output :=
  match h with
  | Single self => FastR2D2Classification.forward env self
  | Cross self => FastR2D2CrossSentence.forward env self
  end.

Definition disable_parser_of {world} (h : head world) : bool :=
  match h with
  | Single self => FastR2D2Classification.disable_parser self
  | Cross self => FastR2D2CrossSentence.disable_parser self
  end.

Definition parser_of {world} (h : head world) : TopdownParser world :=
  match h with
  | Single self => FastR2D2Classification.parser self
  | Cross self => FastR2D2CrossSentence.parser self
  end.

Definition r2d2_of {world} (h : head world) : R2D2Cuda world :=
  match h with
  | Single self => FastR2D2Classification.r2d2 self
  | Cross self => FastR2D2CrossSentence.r2d2 self
  end.

(** The token tensor a head hands to its collaborators: as given for the
    single-sentence head, flattened for the cross-sentence head. *)
Definition tokens_for {world} (h : head world) (x : tensor Z) : result (tensor Z) :=
  match h with
  | Single _ => Ok x
  | Cross _ => FastR2D2CrossSentence.flatten_pairs x
  end.

(** The token tensors an event carries, if it carries any. *)
Definition tokens_of (e : event) : option (tensor Z * tensor Z) :=
  match e with
  | EvParser i m _ _ | EvParserKL i m _ _ _ | EvEncoder i m _ _
  | EvForceEncode i m _ _ => Some (i, m)
  | _ => None
  end.

(** How a head turns a pooled matrix into logits: the events [evs] end in
    the classifier call that returns [logits]. *)
Definition classified {world} (h : head world) (e logits : tensor R)
    (evs : list event) : Prop :=
  match h with
  | Single _ => evs = [EvClassifier e (Returned logits)]
  | Cross self =>
      exists pairs,
        FastR2D2CrossSentence.pair_view e = Ok pairs /\
        pairwise_events (FastR2D2CrossSentence.task_id self) pairs logits evs
  end.

(** Every table's root id is in the cache, with an [E_IJ] vector of the
    hidden size. *)
Definition populated (cache : TensorCache) (tables : list Table) : Prop :=
  Forall (fun t => exists v, cells cache !! cache_id (best_node (root t)) = Some v /\
                             length (v E_IJ) = hidden_size cache) tables.

(** An exception raised by a [raise] statement of the file itself. *)
Definition raised_here (e : error) : Prop :=
  match e with
  | Exception_ _ => True
  | _ => False
  end.

(** A computation that raises none of them. *)
Definition quiet {world A} (m : M world A) : Prop :=
  forall s e s', m s = (Raise e, s') -> ~ raised_here e.

Definition pure_quiet {A} (r : result A) : Prop :=
  forall e, r = Raise e -> ~ raised_here e.

(** Every event a computation logs satisfies [P], however it ends. *)
Definition logs {world A} (P : event -> Prop) (m : M world A) : Prop :=
  forall s r s', m s = (r, s') ->
    exists evs, trace s' = trace s ++ evs /\ Forall P evs.

(** An event that carries token tensors carries these. *)
Definition carries (input_ids attention_mask : tensor Z) (e : event) : Prop :=
  forall p, tokens_of e = Some p -> p = (input_ids, attention_mask).

(** The four loss terms of a training run, read off its log: the encoder
    call and its pooled matrix [e1], classified into [logits1]; the parser
    KL call, if there is one; the force-encode call and its matrix [e2],
    classified into [logits2]. *)
Definition training_terms {world} (env : Imports world) (h : head world)
    (labels : tensor Z) (evs : list event) (ce bilm kl fel : R) : Prop :=
  exists ids mask spans s_indices kw results gids e1 cls1 logits1,
  exists kl_evs e2 cls2 logits2,
    evs = guide_events ids mask spans s_indices
          ++ [EvEncoder ids mask kw (Returned results); EvGather gids [E_IJ]]
          ++ cls1 ++ kl_evs
          ++ [EvForceEncode ids mask spans (Returned e2)] ++ cls2 /\
    pooled_from results gids e1 /\
    classified h e1 logits1 cls1 /\
    cross_entropy env logits1 labels = Returned ce /\
    item_loss results = Some bilm /\
    (kl_evs = [] /\ kl = 0%R \/
     exists masks points,
       samples_of results masks points /\
       kl_evs = [EvParserKL ids mask masks points (Returned kl)]) /\
    classified h e2 logits2 cls2 /\
    cross_entropy env logits2 labels = Returned fel.

(** ** Further vocabulary: failures, error classes, kinds of calls *)





(** A computation whose exceptions all satisfy [ok]. *)
Definition raises_only {world A} (ok : error -> Prop) (m : M world A) : Prop :=
  forall s e s', m s = (Raise e, s') -> ok e.

(** The errors of torch's tensor operations. *)
Definition torch_error (e : error) : Prop :=
  match e with
  | RuntimeError _ | IndexError _ => True
  | _ => False
  end.

Definition torch_only {A} (r : result A) : Prop :=
  forall e, r = Raise e -> torch_error e.

(** Labels given: the call is a training call. *)
Definition is_training (labels : option (tensor Z)) : bool :=
  match labels with Some _ => true | None => false end.

(** The keys of the encoder's result a call may miss: all of them in
    training, but for the single-sentence head with its parser disabled,
    which reads no sampled trees; the tables and the cache at inference. *)
Definition keys_read {world} (h : head world) (training : bool) : list string :=
  if training then
    match h with
    | Single self =>
        if FastR2D2Classification.disable_parser self
        then ["tables"; "tensor_cache"; "loss"]
        else ["tables"; "tensor_cache"; "loss";
              "sampled_trees"; "split_masks"; "split_points"]
    | Cross _ =>
        ["tables"; "tensor_cache"; "loss";
         "sampled_trees"; "split_masks"; "split_points"]
    end
  else ["tables"; "tensor_cache"].

(** The exceptions a call of [forward] can end in. *)
Definition expected_error {world} (h : head world) (training : bool) (e : error)
  : Prop :=
  match e with
  | Exception_ _ => training = false /\ e = config_error
  | KeyError k => In k (keys_read h training)
  | RuntimeError _ | IndexError _ | Propagated _ => True
  end.

Definition is_classifier_call (e : event) : bool :=
  match e with EvClassifier _ _ => true | _ => false end.

Definition is_embedding_call (e : event) : bool :=
  match e with EvEmbedding _ _ => true | _ => false end.

Definition is_tree_decoder_call (e : event) : bool :=
  match e with EvTreeDecoder _ _ => true | _ => false end.

Definition is_gather_call (e : event) : bool :=
  match e with EvGather _ _ => true | _ => false end.

(** What every encoder call of the file asks for: the guidance passed
    explicitly, the tree recovered, the cache kept; sampling in training
    only, the LM loss switched off at inference. *)
Definition encoder_call_ok (training : bool) (e : event) : Prop :=
  match e with
  | EvEncoder _ _ kw _ =>
      merge_trajectories kw <> None /\
      recover_tree kw = Some true /\
      keep_tensor_cache kw = Some true /\
      (if training
       then sample_trees kw <> None /\ lm_loss kw <> Some false
       else sample_trees kw = None /\ lm_loss kw = Some false)
  | _ => True
  end.

(** The only slot a gather asks for is [E_IJ]. *)
Definition gather_call_ok (e : event) : Prop :=
  match e with
  | EvGather _ slots => slots = [E_IJ]
  | _ => True
  end.

Definition is_single {world} (h : head world) : bool :=
  match h with Single _ => true | Cross _ => false end.

(** ** Construction: [__init__] and the classifier it builds *)

(** The fields of [config] the file reads. *)
Module Config.
Record t : Type := {
  hidden_size : nat;
  intermediate_size : nat;
  hidden_dropout_prob : Q;
  pairwise_task_id : Z
}.
End Config.

(** The parameters of an [nn.Linear]: a weight of shape
    [(out_features, in_features)] and a bias. *)
Record LinearParams : Type := { weight : list (list R); bias : list R }.

(** The state of the [nn.Sequential]: the parameters of its two linear
    layers and the module's [training] flag. *)
Record ClassifierState : Type := {
  fc1 : LinearParams;
  fc2 : LinearParams;
  training : bool
}.

Definition linear_ok (i o : nat) (p : LinearParams) : Prop :=
  length (weight p) = o /\
  Forall (fun row => length row = i) (weight p) /\
  length (bias p) = o.

(** Parameters keep the shapes they are built with. *)
Definition classifier_ok (config : Config.t) (label_num : nat)
    (st : ClassifierState) : Prop :=
  linear_ok (Config.hidden_size config) (Config.intermediate_size config) (fc1 st) /\
  linear_ok (Config.intermediate_size config) label_num (fc2 st).

(** What construction takes from elsewhere: the constructors of the
    encoder and of the parser, the GELU function, the current state of the
    classifier and the random mask that dropout draws. *)
Record Library (world : Type) : Type := {
  R2D2Cuda_ : Config.t -> R2D2Cuda world;
  TopdownParser_ : Config.t -> TopdownParser world;
  gelu : R -> R;
  classifier_state : world -> ClassifierState;
  dropout_mask : world -> (nat -> bool) * world
}.
Arguments R2D2Cuda_ {world} _ _.
Arguments TopdownParser_ {world} _ _.
Arguments gelu {world} _ _.
Arguments classifier_state {world} _ _.
Arguments dropout_mask {world} _ _.

Definition dot (u v : list R) : R := sum_R (zip_with Rmult u v).

(** One row through [nn.Linear]: [x W^T + b]. *)
Definition linear_row (p : LinearParams) (x : list R) : list R :=
  zip_with (fun w b => (dot x w + b)%R) (weight p) (bias p).

(** [nn.Linear(i, o)] on a tensor whose last dimension must be [i]; the
    other dimensions are kept. *)
Definition linear (i o : nat) (p : LinearParams) (x : tensor R)
  : result (tensor R) :=
  match last (shape x) with
  | None => Raise (RuntimeError "both arguments to linear need to be at least 1D")
  | Some d =>
      if d =? i then
        Ok (Tensor (removelast (shape x) ++ [o])
              (concat (linear_row p
                         <$> chunks (prod_list (removelast (shape x))) i (data x))))
      else Raise (RuntimeError "mat1 and mat2 shapes cannot be multiplied")
  end.

(** [nn.Dropout(p)]: the identity in evaluation mode; in training mode the
    elements the mask drops are zeroed and the others scaled by
    [1 / (1 - p)] (all are zeroed when [p] is 1). *)
Definition dropout (train : bool) (p : Q) (keep : nat -> bool) (x : tensor R)
  : tensor R :=
  if train then
    Tensor (shape x)
      (imap (fun i v => if Qeq_bool p 1 then 0%R
                        else if keep i then (v / (1 - Q2R p))%R else 0%R)
         (data x))
  else x.

Definition message (e : error) : string :=
  match e with
  | Exception_ m | RuntimeError m | IndexError m | KeyError m | Propagated m => m
  end.

(** [nn.Sequential(nn.Linear(hidden_size, intermediate_size), nn.GELU(),
    nn.Dropout(hidden_dropout_prob), nn.Linear(intermediate_size, label_num))] *)
Definition sequential {world} (lib : Library world) (config : Config.t)
    (label_num : nat) (x : tensor R) : world -> outcome (tensor R) * world :=
  fun w =>
    let st := classifier_state lib w in
    match linear (Config.hidden_size config) (Config.intermediate_size config)
            (fc1 st) x with
    | Raise e => (Failed (message e), w)
    | Ok h1 =>
        let h2 := Tensor (shape h1) (gelu lib <$> data h1) in
        let '(h3, w') :=
          if training st then
            let '(keep, w') := dropout_mask lib w in
            (dropout true (Config.hidden_dropout_prob config) keep h2, w')
          else (dropout false (Config.hidden_dropout_prob config) (fun _ => true) h2, w) in
        match linear (Config.intermediate_size config) label_num (fc2 st) h3 with
        | Raise e => (Failed (message e), w')
        | Ok y => (Returned y, w')
        end
    end.

(** What a constructor gives: the module, or the [ValueError] of
    [nn.Dropout] for a probability outside [[0, 1]]. *)
Inductive built (A : Type) : Type :=
| Built (self : A)
| ValueError (msg : string).
Arguments Built {A} _.
Arguments ValueError {A} _.

Definition dropout_prob_ok (p : Q) : bool := Qle_bool 0 p && Qle_bool p 1.

(** [FastR2D2Classification.__init__(config, label_num, disable_parser=False)] *)
Definition init_classification {world} (lib : Library world)
    (config : Config.t) (label_num : nat) (disable_parser : option bool)
  : built (FastR2D2Classification.t world) :=
  if dropout_prob_ok (Config.hidden_dropout_prob config) then
    Built {| FastR2D2Classification.r2d2 := R2D2Cuda_ lib config;
             FastR2D2Classification.parser := TopdownParser_ lib config;
             FastR2D2Classification.classifier := sequential lib config label_num;
             FastR2D2Classification.disable_parser := default false disable_parser |}
  else ValueError "dropout probability has to be between 0 and 1".

(** [FastR2D2CrossSentence.__init__(config, label_num, disable_parser=False)] *)
Definition init_cross_sentence {world} (lib : Library world)
    (config : Config.t) (label_num : nat) (disable_parser : option bool)
  : built (FastR2D2CrossSentence.t world) :=
  if dropout_prob_ok (Config.hidden_dropout_prob config) then
    Built {| FastR2D2CrossSentence.r2d2 := R2D2Cuda_ lib config;
             FastR2D2CrossSentence.parser := TopdownParser_ lib config;
             FastR2D2CrossSentence.classifier := sequential lib config label_num;
             FastR2D2CrossSentence.task_id := Config.pairwise_task_id config;
             FastR2D2CrossSentence.disable_parser := default false disable_parser |}
  else ValueError "dropout probability has to be between 0 and 1".

(** Either head, as its constructor builds it. *)
Definition built_by {world} (lib : Library world) (config : Config.t)
    (label_num : nat) (disable_parser : option bool) (h : head world) : Prop :=
  match h with
  | Single self => init_classification lib config label_num disable_parser = Built self
  | Cross self => init_cross_sentence lib config label_num disable_parser = Built self
  end.

Definition classifier_of {world} (h : head world)
  : tensor R -> world -> outcome (tensor R) * world :=
  match h with
  | Single self => FastR2D2Classification.classifier self
  | Cross self => FastR2D2CrossSentence.classifier self
  end.

(** ** More stand-ins: results without samples, failures, a built head *)

Module StubMore.

(** An encoder result without sampled trees. *)
Definition bare_results : Results :=
  {| item_tables := Some Stub.the_tables;
     item_tensor_cache := Some Stub.the_cache;
     item_loss := Some 3%R;
     item_sampled_trees := None |}.

Definition bare_r2d2 : R2D2Cuda nat :=
  {| encode := fun _ _ _ => Stub.tick bare_results;
     embedding := embedding Stub.the_r2d2;
     tree_decoder := tree_decoder Stub.the_r2d2 |}.

Definition bare_cross : FastR2D2CrossSentence.t nat :=
  {| FastR2D2CrossSentence.r2d2 := bare_r2d2;
     FastR2D2CrossSentence.parser := Stub.the_parser;
     FastR2D2CrossSentence.classifier := fun x => Stub.tick x;
     FastR2D2CrossSentence.task_id := 9;
     FastR2D2CrossSentence.disable_parser := true |}.



(** A [force_encode] that returns three rows. *)
Definition three_rows : tensor R := Tensor [3; 2] [1%R; 2%R; 3%R; 4%R; 5%R; 6%R].

Definition odd_imports : Imports nat :=
  {| force_encode := fun _ _ _ _ _ => Stub.tick three_rows;
     cross_entropy := fun _ _ => Returned 2%R |}.

(** Pooled pairs of width 3, where the embedding has width 2. *)
Definition wide_pairs : tensor R :=
  Tensor [1; 2; 3] [1%R; 2%R; 3%R; 4%R; 5%R; 6%R].

(** A configuration, a library and the heads built from them: two hidden
    units, three intermediate ones, two labels, evaluation mode. *)
Definition the_config : Config.t :=
  {| Config.hidden_size := 2;
     Config.intermediate_size := 3;
     Config.hidden_dropout_prob := 1 # 10;
     Config.pairwise_task_id := 9 |}.

Definition the_state : ClassifierState :=
  {| fc1 := {| weight := [[1%R; 0%R]; [0%R; 1%R]; [1%R; 1%R]];
               bias := [0%R; 0%R; 0%R] |};
     fc2 := {| weight := [[1%R; 1%R; 1%R]; [1%R; 0%R; 0%R]];
               bias := [0%R; 1%R] |};
     training := false |}.

Definition the_library : Library nat :=
  {| R2D2Cuda_ := fun _ => Stub.the_r2d2;
     TopdownParser_ := fun _ => Stub.the_parser;
     gelu := fun x => x;
     classifier_state := fun _ => the_state;
     dropout_mask := fun w => (fun _ => true, S w) |}.

Definition built_single : FastR2D2Classification.t nat :=
  {| FastR2D2Classification.r2d2 := Stub.the_r2d2;
     FastR2D2Classification.parser := Stub.the_parser;
     FastR2D2Classification.classifier := sequential the_library the_config 2;
     FastR2D2Classification.disable_parser := false |}.

Definition narrow : tensor R := Tensor [1; 3] [1%R; 2%R; 3%R].

End StubMore.

(** ** Blocks of a flat list *)

Section Blocks.
Context {A : Type}.
Implicit Types l b : list A.
Implicit Types bs : list (list A).

Lemma chunks_length n k l : length (chunks n k l) = n.
Proof. revert l. induction n as [|n IH]; intros l; cbn; [|rewrite IH]; done. Qed.

Lemma chunks_lookup n k l i :
  i < n -> chunks n k l !! i = Some (take k (drop (i * k) l)).
Proof.
  revert l i. induction n as [|n IH]; intros l [|i] Hi; cbn; try lia.
  - done.
  - rewrite IH by lia. rewrite drop_drop. done.
Qed.

Lemma chunks_lookup_ge n k l i : n <= i -> chunks n k l !! i = None.
Proof. intros. apply lookup_ge_None_2. rewrite chunks_length. done. Qed.

Lemma chunks_full n k l :
  n * k <= length l -> Forall (fun b => length b = k) (chunks n k l).
Proof.
  revert l. induction n as [|n IH]; intros l Hl; cbn; constructor.
  - rewrite length_take. cbn in Hl. lia.
  - apply IH. rewrite length_drop. cbn in Hl. lia.
Qed.

Lemma concat_uniform_length k bs :
  Forall (fun b => length b = k) bs -> length (concat bs) = length bs * k.
Proof.
  induction 1 as [|b bs Hb _ IH]; cbn; [done|].
  rewrite length_app, IH, Hb. done.
Qed.

Lemma concat_block k bs i b :
  Forall (fun b => length b = k) bs ->
  bs !! i = Some b ->
  take k (drop (i * k) (concat bs)) = b.
Proof.
  intros Hbs. revert i. induction Hbs as [|b0 bs Hb0 _ IH]; intros [|i] Hi;
    cbn in *; try done.
  - injection Hi as ->. apply take_app_length'. done.
  - rewrite drop_app_add' by done. apply IH. done.
Qed.

Lemma concat_lookup k bs i j :
  Forall (fun b => length b = k) bs ->
  j < k ->
  concat bs !! (i * k + j) = bs !! i ≫= (fun b => b !! j).
Proof.
  intros Hbs Hj. destruct (bs !! i) as [b|] eqn:Hi; cbn.
  - rewrite <- lookup_drop, <- (lookup_take_lt _ k) by done.
    rewrite (concat_block k bs i b Hbs Hi). done.
  - apply lookup_ge_None_2. rewrite (concat_uniform_length k) by done.
    apply lookup_ge_None_1 in Hi. nia.
Qed.

Lemma chunks_concat_lookup n k l i j :
  n * k <= length l -> i < n -> j < k ->
  concat (chunks n k l) !! (i * k + j) = l !! (i * k + j).
Proof.
  intros Hl Hi Hj. rewrite (concat_lookup k) by auto using chunks_full.
  rewrite chunks_lookup by done. cbn.
  rewrite lookup_take_lt by done. rewrite lookup_drop. done.
Qed.

End Blocks.

(** ** Softmax *)













(** ** Views *)

Section Views.
Context {A : Type}.
Implicit Types x e : tensor A.
Import FastR2D2CrossSentence.




End Views.

(** ** Pooling *)

Lemma root_cache_ids_map (tables : list Table) :
  root_cache_ids tables = (fun t => cache_id (best_node (root t))) <$> tables.
Proof.
  unfold root_cache_ids.
  enough (forall acc,
    fold_left (fun acc t => acc ++ [cache_id (best_node (root t))]) tables acc
    = acc ++ ((fun t => cache_id (best_node (root t))) <$> tables)) as H
    by apply (H []).
  induction tables as [|t tables IH]; intros acc; cbn.
  - rewrite app_nil_r. done.
  - rewrite IH, <- app_assoc. done.
Qed.

Lemma gather_entries (cache : TensorCache) (tables : list Table) :
  populated cache tables ->
  exists entries,
    mapM (fun i => cells cache !! i) (root_cache_ids tables) = Some entries /\
    Forall2 (fun t v => cells cache !! cache_id (best_node (root t)) = Some v /\
                        length (v E_IJ) = hidden_size cache) tables entries.
Proof.
  rewrite root_cache_ids_map.
  induction 1 as [|t tables (v & Hv & Hlen) _ (entries & Hm & Hall)].
  - exists []. split; [done|constructor].
  - exists (v :: entries). split.
    + cbn. rewrite Hv. cbn. rewrite Hm. done.
    + constructor; done.
Qed.

(** The gathered matrix: its shape, its well-formedness and its rows. *)
Lemma gather_rows (cache : TensorCache) (tables : list Table) :
  populated cache tables ->
  exists e,
    gather cache (root_cache_ids tables) [E_IJ] = Ok [e] /\
    shape e = [length tables; hidden_size cache] /\
    well_formed e /\
    forall i t, tables !! i = Some t ->
      exists v, cells cache !! cache_id (best_node (root t)) = Some v /\
                example_row e i = v E_IJ.
Proof.
  intros Hpop. destruct (gather_entries cache tables Hpop) as (entries & Hm & Hall).
  unfold gather. rewrite Hm. eexists. split; [reflexivity|].
  assert (Forall (fun b => length b = hidden_size cache)
            ((fun e => e E_IJ) <$> entries)) as Hlen.
  { apply Forall_fmap. clear Hm Hpop.
    induction Hall as [|t v ts vs [_ Hv] _ IH]; constructor; done. }
  assert (length (root_cache_ids tables) = length tables) as Hn
    by (rewrite root_cache_ids_map, length_fmap; done).
  split; [cbn; congruence|]. split.
  - unfold well_formed, numel. cbn.
    rewrite (concat_uniform_length (hidden_size cache)) by done.
    rewrite length_fmap, Hn. rewrite <- (Forall2_length _ _ _ Hall). lia.
  - intros i t Ht.
    destruct (Forall2_lookup_l _ _ _ _ _ Hall Ht) as (v & Hv & Hcell & _).
    exists v. split; [done|].
    unfold example_row. cbn.
    apply concat_block; [done|].
    rewrite list_lookup_fmap, Hv. done.
Qed.

(** ** Concatenation and slicing along dimension 1 *)

Section Triples.
Context {A : Type}.
Implicit Types l : list A.

Lemma get2 l P D b d :
  get (Tensor [P; D] l) [b; d]
  = if (b <? P) && (d <? D) then l !! (b * D + d) else None.
Proof.
  unfold get, ravel. cbn [shape data ravel_from].
  destruct (Nat.ltb_spec b P), (Nat.ltb_spec d D); cbn; try done.
Qed.

Lemma get3 l P K D b k d :
  get (Tensor [P; K; D] l) [b; k; d]
  = if (b <? P) && (k <? K) && (d <? D)
    then l !! (b * (K * D) + (k * D + d)) else None.
Proof.
  unfold get, ravel. cbn [shape data ravel_from].
  destruct (Nat.ltb_spec b P), (Nat.ltb_spec k K), (Nat.ltb_spec d D);
    cbn; try done.
  f_equal. lia.
Qed.

Lemma zip_blocks_full (xs ys : list (list A)) m n :
  Forall (fun b => length b = m) xs ->
  Forall (fun b => length b = n) ys ->
  Forall (fun b => length b = m + n) (zip_with app xs ys).
Proof.
  intros Hx Hy. apply Forall_lookup. intros i x Hi.
  apply lookup_zip_with_Some in Hi as (a & b & -> & Ha & Hb).
  rewrite length_app.
  rewrite (Forall_lookup_1 _ _ _ _ Hx Ha), (Forall_lookup_1 _ _ _ _ Hy Hb).
  done.
Qed.

(** Element [j] of block [b] of two interleaved block lists. *)
Lemma zip_blocks_lookup (la lb : list A) P m n b j :
  P * m <= length la -> P * n <= length lb -> b < P -> j < m + n ->
  concat (zip_with app (chunks P m la) (chunks P n lb)) !! (b * (m + n) + j)
  = if j <? m then la !! (b * m + j) else lb !! (b * n + (j - m)).
Proof.
  intros Ha Hb HbP Hj. destruct (Nat.ltb_spec j m).
  all: rewrite (concat_lookup (m + n))
    by auto using zip_blocks_full, chunks_full.
  all: rewrite lookup_zip_with, !chunks_lookup by done; cbn.
  all: assert (length (take m (drop (b * m) la)) = m) as Hlen
    by (rewrite length_take, length_drop; nia).
  - rewrite lookup_app_l by lia.
    rewrite lookup_take_lt by done. rewrite lookup_drop. done.
  - rewrite lookup_app_r by lia. rewrite Hlen.
    rewrite lookup_take_lt by lia. rewrite lookup_drop. done.
Qed.

Lemma cat1_blocks (lm lp : list A) P D :
  cat1 (Tensor [P; 1; D] lm) (Tensor [P; 2; D] lp)
  = Ok (Tensor [P; 3; D]
          (concat (zip_with app (chunks P D lm) (chunks P (2 * D) lp)))).
Proof.
  unfold cat1. cbn [shape data prod_list foldr].
  rewrite Nat.mul_1_r, Nat.mul_1_l.
  destruct P; (destruct (decide _) as [_|[]]; [reflexivity|split; done]).
Qed.

(** [cat] of a [(P, 1, D)] and a [(P, 2, D)] tensor is the [(P, 3, D)]
    tensor with the first in front. *)
Lemma cat1_prepend (m p : tensor A) P D :
  shape m = [P; 1; D] -> shape p = [P; 2; D] ->
  well_formed m -> well_formed p ->
  exists x,
    cat1 m p = Ok x /\
    shape x = [P; 3; D] /\
    well_formed x /\
    forall b d,
      get x [b; 0; d] = get m [b; 0; d] /\
      get x [b; 1; d] = get p [b; 0; d] /\
      get x [b; 2; d] = get p [b; 1; d].
Proof.
  destruct m as [sm lm], p as [sp lp]. unfold well_formed, numel.
  cbn [shape data]. intros -> -> Hm Hp. cbn [prod_list foldr] in Hm, Hp.
  assert (P * D <= length lm) as Hm' by lia.
  assert (P * (2 * D) <= length lp) as Hp' by lia.
  rewrite cat1_blocks. eexists. split; [reflexivity|].
  split; [done|]. split.
  { unfold well_formed, numel. cbn [shape data prod_list foldr].
    rewrite (concat_uniform_length (D + 2 * D))
      by auto using zip_blocks_full, chunks_full.
    rewrite length_zip_with, !chunks_length. lia. }
  intros b d. rewrite !get3.
  destruct (Nat.ltb_spec b P), (Nat.ltb_spec d D); cbn [Nat.ltb Nat.leb andb];
    try done.
  replace (b * (3 * D) + (0 * D + d)) with (b * (D + 2 * D) + d) by lia.
  replace (b * (3 * D) + (1 * D + d)) with (b * (D + 2 * D) + (D + d)) by lia.
  replace (b * (3 * D) + (2 * D + d)) with (b * (D + 2 * D) + (2 * D + d)) by lia.
  rewrite !zip_blocks_lookup by lia.
  destruct (Nat.ltb_spec d D); [|lia].
  destruct (Nat.ltb_spec (D + d) D); [lia|].
  destruct (Nat.ltb_spec (2 * D + d) D); [lia|].
  repeat split; f_equal; lia.
Qed.

(** [t[:, 0, :]] of a [(P, K, D)] tensor is the [(P, D)] tensor of its
    first rows. *)
Lemma select1_0_first (o : tensor A) P K D :
  shape o = [P; K; D] -> 0 < K -> well_formed o ->
  exists h,
    select1_0 o = Ok h /\
    shape h = [P; D] /\
    forall b d, get h [b; d] = get o [b; 0; d].
Proof.
  destruct o as [so lo]. unfold well_formed, numel. cbn [shape data].
  intros -> HK Ho. cbn [prod_list foldr] in Ho.
  unfold select1_0. cbn [shape data prod_list foldr].
  destruct (Nat.eqb_spec K 0) as [->|_]; [lia|].
  eexists. split; [reflexivity|]. split; [done|].
  intros b d. rewrite get2, get3. rewrite Nat.mul_1_r.
  destruct (Nat.ltb_spec b P), (Nat.ltb_spec d D), (Nat.ltb_spec 0 K);
    cbn [andb]; try done; try lia.
  rewrite (concat_lookup D); [|apply Forall_fmap|done].
  - rewrite list_lookup_fmap, chunks_lookup by done. cbn.
    rewrite !lookup_take_lt by nia. rewrite lookup_drop. f_equal; lia.
  - eapply Forall_impl; [apply (chunks_full P (K * D)); nia|].
    intros c Hc. unfold compose. rewrite length_take, Hc.
    apply Nat.min_l. nia.
Qed.

End Triples.
(** ** The monad: inversion of runs *)

Section Runs.
Context {world : Type}.
Implicit Types s : state world.

Lemma bind_Ok {A B} (m : M world A) (k : A -> M world B) s b s' :
  bind m k s = (Ok b, s') ->
  exists a s1, m s = (Ok a, s1) /\ k a s1 = (Ok b, s').
Proof.
  unfold bind. destruct (m s) as [[a|e] s1]; [eauto | discriminate].
Qed.

Lemma bind_Raise {A B} (m : M world A) (k : A -> M world B) s e s' :
  bind m k s = (Raise e, s') ->
  m s = (Raise e, s') \/ exists a s1, m s = (Ok a, s1) /\ k a s1 = (Raise e, s').
Proof.
  unfold bind. destruct (m s) as [[a|e0] s1]; [eauto | left; congruence].
Qed.

Lemma ret_Ok {A} (a b : A) s s' : ret a s = (Ok b, s') -> a = b /\ s' = s.
Proof. unfold ret. intros [= -> ->]. auto. Qed.

Lemma lift_Ok {A} (r : result A) (a : A) s s' :
  lift r s = (Ok a, s') -> r = Ok a /\ s' = s.
Proof. unfold lift. intros [= -> ->]. auto. Qed.

Lemma lift_outcome_Ok {A} (o : outcome A) (a : A) s s' :
  lift_outcome o s = (Ok a, s') -> o = Returned a /\ s' = s.
Proof. destruct o; cbn; intros [= -> ->] || intros [=]; auto. Qed.

Lemma getitem_Ok {A} key (v : option A) (a : A) s s' :
  getitem key v s = (Ok a, s') -> v = Some a /\ s' = s.
Proof. destruct v; cbn; intros [= -> ->] || intros [=]; auto. Qed.

Lemma item0_Ok {A} (l : list A) (a : A) s s' :
  item0 l s = (Ok a, s') -> (exists l', l = a :: l') /\ s' = s.
Proof. destruct l; cbn; intros [= -> ->] || intros [=]; eauto. Qed.

Lemma log_Ok ev (u : unit) s s' :
  log ev s = (Ok u, s') -> s' = State (world_of s) (trace s ++ [ev]).
Proof. unfold log. intros [= _ ->]. reflexivity. Qed.

Lemma call_Ok {A} (f : world -> outcome A * world) ev (a : A) s s' :
  call f ev s = (Ok a, s') ->
  exists w', f (world_of s) = (Returned a, w') /\
             s' = State w' (trace s ++ [ev (Returned a)]).
Proof.
  unfold call. destruct (f (world_of s)) as [[a0|msg] w']; intros [= <- <-]; eauto.
Qed.

Lemma gather_one (c : TensorCache) ids slot l :
  gather c ids [slot] = Ok l -> exists e, l = [e].
Proof.
  unfold gather. destruct (mapM _ ids); intros [= <-]; cbn; eauto.
Qed.

Lemma root_vectors_Ok tables cache e s s' :
  root_vectors tables cache s = (Ok e, s') ->
  gather cache (root_cache_ids tables) [E_IJ] = Ok [e] /\
  s' = State (world_of s) (trace s ++ [EvGather (root_cache_ids tables) [E_IJ]]).
Proof.
  unfold root_vectors. intros H.
  apply bind_Ok in H as (u & s1 & H1 & H). apply log_Ok in H1 as ->.
  apply bind_Ok in H as (l & s2 & H2 & H). apply lift_Ok in H2 as [H2 ->].
  apply item0_Ok in H as [[l' ->] ->].
  destruct (gather_one _ _ _ _ H2) as [e' [= -> ->]]. auto.
Qed.

End Runs.

Ltac run_steps_with leaf H :=
  first
    [ leaf H
    | let H1 := fresh "Hstep" in
      apply bind_Ok in H as (? & ? & H1 & H);
      run_steps_with leaf H1; run_steps_with leaf H
    | apply ret_Ok in H as [<- ->]
    | apply call_Ok in H as (? & H & ->)
    | apply getitem_Ok in H as [H ->]
    | apply lift_outcome_Ok in H as [H ->]
    | apply lift_Ok in H as [H ->]
    | idtac ];
  try match goal with Hx : Raise _ = Ok _ |- _ => discriminate Hx end;
  cbn [world_of trace] in *.

Ltac log_normal := cbn [trace world_of]; rewrite <- ?app_assoc; cbn [app].

Ltac log_eq := cbn [app guide_events]; reflexivity.

(** Close a conjunction of facts that are among the hypotheses. *)
Ltac facts :=
  unfold pooled_from, samples_of;
  repeat match goal with
         | |- _ /\ _ => split
         | |- exists _, _ => eexists
         end;
  first [eassumption | reflexivity].

Section Pairwise.
Context {world : Type}.
Import FastR2D2CrossSentence.

Lemma pairwise_encoding_Ok (self : t world) (pairs logits : tensor R)
    (s s' : state world) :
  pairwise_encoding self pairs s = (Ok logits, s') ->
  exists evs w',
    pairwise_events (task_id self) pairs logits evs /\
    s' = State w' (trace s ++ evs).
Proof.
  unfold pairwise_encoding. intros H.
  run_steps_with ltac:(fun _ => fail) H. log_normal.
  do 2 eexists. split; [|reflexivity]. unfold pairwise_events. facts.
Qed.

End Pairwise.

(** Peel a successful run of [forward] into its steps. *)
Ltac forward_leaf H :=
  first
    [ apply root_vectors_Ok in H as [H ->]
    | apply pairwise_encoding_Ok in H as (? & ? & H & ->) ].

Ltac run_ok H := run_steps_with forward_leaf H; log_normal.

(** ** Which exceptions a computation can raise *)

Section Quiet.
Context {world : Type}.

Lemma quiet_ret {A} (a : A) : quiet (world := world) (ret a).
Proof. intros s e s' [=]. Qed.

Lemma quiet_bind {A B} (m : M world A) (k : A -> M world B) :
  quiet m -> (forall a, quiet (k a)) -> quiet (bind m k).
Proof.
  intros Hm Hk s e s' H. apply bind_Raise in H as [H|(a & s1 & _ & H)].
  - exact (Hm _ _ _ H).
  - exact (Hk _ _ _ _ H).
Qed.

Lemma quiet_call {A} (f : world -> outcome A * world) ev : quiet (call f ev).
Proof.
  intros s e s'. unfold call.
  destruct (f (world_of s)) as [[a|msg] w']; intros [= <- _]; cbn; tauto.
Qed.

Lemma quiet_log ev : quiet (world := world) (log ev).
Proof. intros s e s' [=]. Qed.

Lemma quiet_getitem {A} key (v : option A) : quiet (world := world) (getitem key v).
Proof. intros s e s'. destruct v; intros [= <- _]; cbn; tauto. Qed.

Lemma quiet_item0 {A} (l : list A) : quiet (world := world) (item0 l).
Proof. intros s e s'. destruct l; intros [= <- _]; cbn; tauto. Qed.

Lemma quiet_lift_outcome {A} (o : outcome A) :
  quiet (world := world) (lift_outcome o).
Proof. intros s e s'. destruct o; intros [= <- _]; cbn; tauto. Qed.

Lemma quiet_lift {A} (r : result A) : pure_quiet r -> quiet (world := world) (lift r).
Proof. intros Hr s e s' [= -> _]. apply (Hr e). done. Qed.

Lemma quiet_if {A} (b : bool) (m1 m2 : M world A) :
  quiet m1 -> quiet m2 -> quiet (if b then m1 else m2).
Proof. destruct b; done. Qed.

End Quiet.

(** The tensor operations raise torch's errors only. *)
Ltac pure_quiet_tac :=
  intros e;
  repeat match goal with
         | |- context [match ?x with _ => _ end] => destruct x
         end;
  intros [= <-]; cbn; tauto.

Lemma gather_quiet c ids slots : pure_quiet (gather c ids slots).
Proof. unfold gather. pure_quiet_tac. Qed.

Lemma shape_first_quiet {A} (t : tensor A) : pure_quiet (shape_first t).
Proof. unfold shape_first. pure_quiet_tac. Qed.

Lemma shape_last_quiet {A} (t : tensor A) : pure_quiet (shape_last t).
Proof. unfold shape_last. pure_quiet_tac. Qed.

Lemma view_quiet {A} (t : tensor A) shp : pure_quiet (view t shp).
Proof. unfold view. pure_quiet_tac. Qed.

Lemma view_infer_quiet {A} (t : tensor A) d : pure_quiet (view_infer t d).
Proof. unfold view_infer. pure_quiet_tac. Qed.

Lemma unsqueeze1_quiet {A} (t : tensor A) : pure_quiet (unsqueeze1 t).
Proof. unfold unsqueeze1. pure_quiet_tac. Qed.

Lemma cat1_quiet {A} (a b : tensor A) : pure_quiet (cat1 a b).
Proof. unfold cat1. pure_quiet_tac. Qed.

Lemma select1_0_quiet {A} (t : tensor A) : pure_quiet (select1_0 t).
Proof. unfold select1_0. pure_quiet_tac. Qed.

Lemma flatten_pairs_quiet {A} (t : tensor A) :
  pure_quiet (FastR2D2CrossSentence.flatten_pairs t).
Proof.
  unfold FastR2D2CrossSentence.flatten_pairs. intros e.
  destruct (shape_last t) eqn:H1.
  - apply view_infer_quiet.
  - intros [= <-]. exact (shape_last_quiet t _ H1).
Qed.

Lemma pair_view_quiet {A} (t : tensor A) :
  pure_quiet (FastR2D2CrossSentence.pair_view t).
Proof.
  unfold FastR2D2CrossSentence.pair_view. intros e.
  destruct (shape_first t) eqn:H1.
  - destruct (shape_last t) eqn:H2.
    + apply view_quiet.
    + intros [= <-]. exact (shape_last_quiet t _ H2).
  - intros [= <-]. exact (shape_first_quiet t _ H1).
Qed.

Ltac quiet_step :=
  first
    [ apply quiet_ret
    | apply quiet_call
    | apply quiet_log
    | apply quiet_getitem
    | apply quiet_item0
    | apply quiet_lift_outcome
    | apply quiet_lift;
      first [ apply gather_quiet | apply shape_first_quiet | apply unsqueeze1_quiet
            | apply cat1_quiet | apply select1_0_quiet | apply flatten_pairs_quiet
            | apply pair_view_quiet ]
    | apply quiet_if
    | apply quiet_bind; [|intros ?] ].

Section QuietForward.
Context {world : Type} (env : Imports world).

Lemma root_vectors_quiet tables cache :
  quiet (world := world) (root_vectors tables cache).
Proof. unfold root_vectors. repeat quiet_step. Qed.

Lemma pairwise_encoding_quiet (self : FastR2D2CrossSentence.t world) pairs :
  quiet (FastR2D2CrossSentence.pairwise_encoding self pairs).
Proof. unfold FastR2D2CrossSentence.pairwise_encoding. repeat quiet_step. Qed.

(** Training raises no exception of the file's own: what it raises comes
    from a collaborator, a missing key or a tensor operation. *)
Lemma training_quiet (h : head world) input_ids attention_mask num_samples
    atom_spans labels force_encoding :
  quiet (forward_of env h input_ids attention_mask num_samples atom_spans
           (Some labels) force_encoding).
Proof.
  destruct h as [self|self]; cbn [forward_of].
  - unfold FastR2D2Classification.forward. cbv zeta.
    repeat first [apply root_vectors_quiet | quiet_step].
  - unfold FastR2D2CrossSentence.forward. cbv zeta.
    repeat first [apply root_vectors_quiet | apply pairwise_encoding_quiet
                 | quiet_step].
Qed.

End QuietForward.

(** ** What a computation logs *)

Section Logs.
Context {world : Type} (P : event -> Prop).

Lemma logs_silent {A} (m : M world A) :
  (forall s, snd (m s) = s) -> logs P m.
Proof.
  intros Hm s r s' H. exists []. rewrite app_nil_r.
  specialize (Hm s). rewrite H in Hm. cbn in Hm. subst s'. auto.
Qed.

Lemma logs_ret {A} (a : A) : logs (world := world) P (ret a).
Proof. apply logs_silent. done. Qed.

Lemma logs_raise {A} e : logs (world := world) (A := A) P (raise e).
Proof. apply logs_silent. done. Qed.

Lemma logs_lift {A} (r : result A) : logs (world := world) P (lift r).
Proof. apply logs_silent. done. Qed.

Lemma logs_getitem {A} key (v : option A) : logs (world := world) P (getitem key v).
Proof. apply logs_silent. destruct v; done. Qed.

Lemma logs_item0 {A} (l : list A) : logs (world := world) P (item0 l).
Proof. apply logs_silent. destruct l; done. Qed.

Lemma logs_lift_outcome {A} (o : outcome A) : logs (world := world) P (lift_outcome o).
Proof. apply logs_silent. destruct o; done. Qed.

Lemma logs_log ev : P ev -> logs (world := world) P (log ev).
Proof. intros Hev s r s' [= _ <-]. exists [ev]. cbn. auto. Qed.

Lemma logs_call {A} (f : world -> outcome A * world) ev :
  (forall o, P (ev o)) -> logs P (call f ev).
Proof.
  intros Hev s r s'. unfold call.
  destruct (f (world_of s)) as [[a|msg] w']; intros [= _ <-];
    eexists [_]; cbn; auto.
Qed.

Lemma logs_bind {A B} (m : M world A) (k : A -> M world B) :
  logs P m -> (forall a, logs P (k a)) -> logs P (bind m k).
Proof.
  intros Hm Hk s r s'. unfold bind.
  destruct (m s) as [[a|e] s1] eqn:H1.
  - intros H2. destruct (Hm _ _ _ H1) as (evs1 & E1 & F1).
    destruct (Hk _ _ _ _ H2) as (evs2 & E2 & F2).
    exists (evs1 ++ evs2). rewrite E2, E1, app_assoc.
    split; [done|]. apply Forall_app. done.
  - intros [= <- <-]. exact (Hm _ _ _ H1).
Qed.


Lemma logs_if {A} (b : bool) (m1 m2 : M world A) :
  logs P m1 -> logs P m2 -> logs P (if b then m1 else m2).
Proof. destruct b; done. Qed.

End Logs.

Ltac logs_step :=
  first
    [ apply logs_ret
    | apply logs_raise
    | apply logs_call; intros ?
    | apply logs_log
    | apply logs_getitem
    | apply logs_item0
    | apply logs_lift_outcome
    | apply logs_lift
    | apply logs_if
    | apply logs_bind; [|intros ?] ].

Lemma count_app p (l k : list event) : count p (l ++ k) = count p l + count p k.
Proof. induction l as [|e l IH]; cbn; [done|]. rewrite IH. lia. Qed.

Section TokensFlow.
Context {world : Type} (env : Imports world).

Lemma carries_none i m e : tokens_of e = None -> carries i m e.
Proof. intros H p. rewrite H. done. Qed.


End TokensFlow.

(** ** Training runs *)

Section Training.
Context {world : Type} (env : Imports world).


(** A training call of the single-sentence head that returns: its log and
    its four loss terms. *)
Lemma classification_training_run (self : FastR2D2Classification.t world)
    (input_ids attention_mask : tensor Z) (num_samples : Z)
    (atom_spans : option AtomSpans) (labels : tensor Z) (force_encoding : bool)
    (s s' : state world) (out : output) :
  FastR2D2Classification.forward env self input_ids attention_mask num_samples atom_spans
    (Some labels) force_encoding s = (Ok out, s') ->
  exists s_indices results ids e1 logits1 ce bilm kl_events kl e2 logits2 fel,
    trace s' =
      trace s ++ guide_events input_ids attention_mask atom_spans s_indices
      ++ [EvEncoder input_ids attention_mask
            {| merge_trajectories := Some s_indices;
               sample_trees := Some num_samples;
               recover_tree := Some true;
               keep_tensor_cache := Some true;
               lm_loss := None |} (Returned results);
          EvGather ids [E_IJ];
          EvClassifier e1 (Returned logits1)]
      ++ kl_events
      ++ [EvForceEncode input_ids attention_mask atom_spans (Returned e2);
          EvClassifier e2 (Returned logits2)] /\
    (if FastR2D2Classification.disable_parser self
     then s_indices = None /\ kl_events = [] /\ kl = 0%R
     else exists guidance masks points,
            s_indices = Some guidance /\
            samples_of results masks points /\
            kl_events = [EvParserKL input_ids attention_mask masks points
                           (Returned kl)]) /\
    pooled_from results ids e1 /\
    cross_entropy env logits1 labels = Returned ce /\
    item_loss results = Some bilm /\
    (exists w w',
       force_encode env (FastR2D2Classification.parser self) (FastR2D2Classification.r2d2 self)
         input_ids attention_mask atom_spans w = (Returned e2, w')) /\
    cross_entropy env logits2 labels = Returned fel /\
    out = Loss (fel + ce + kl + bilm)%R.
Proof.
  unfold FastR2D2Classification.forward. intros H.
  destruct (FastR2D2Classification.disable_parser self) eqn:Hd; cbn [negb] in H; run_ok H;
    do 12 eexists; refine (conj _ (conj _ _)).
  2: repeat split; reflexivity.
  1: log_eq.
  1: facts.
  2: do 3 eexists; split; [reflexivity|]; facts.
  1: log_eq.
  facts.
Qed.

(** The same for the cross-sentence head: the parser KL call is there
    whatever [disable_parser] says. *)
Lemma cross_sentence_training_run (self : FastR2D2CrossSentence.t world)
    (input_ids attention_mask : tensor Z) (num_samples : Z)
    (atom_spans : option AtomSpans) (labels : tensor Z) (force_encoding : bool)
    (s s' : state world) (out : output) :
  FastR2D2CrossSentence.forward env self input_ids attention_mask num_samples
    atom_spans (Some labels) force_encoding s = (Ok out, s') ->
  exists flat_ids flat_mask s_indices results ids e1 pairs1 logits1 evs1 ce bilm,
  exists masks points kl e2 pairs2 logits2 evs2 fel,
    FastR2D2CrossSentence.flatten_pairs input_ids = Ok flat_ids /\
    FastR2D2CrossSentence.flatten_pairs attention_mask = Ok flat_mask /\
    trace s' =
      trace s ++ guide_events flat_ids flat_mask atom_spans s_indices
      ++ [EvEncoder flat_ids flat_mask
            {| merge_trajectories := Some s_indices;
               sample_trees := Some num_samples;
               recover_tree := Some true;
               keep_tensor_cache := Some true;
               lm_loss := Some true |} (Returned results);
          EvGather ids [E_IJ]]
      ++ evs1
      ++ [EvParserKL flat_ids flat_mask masks points (Returned kl);
          EvForceEncode flat_ids flat_mask atom_spans (Returned e2)]
      ++ evs2 /\
    (if FastR2D2CrossSentence.disable_parser self
     then s_indices = None
     else exists guidance, s_indices = Some guidance) /\
    pooled_from results ids e1 /\
    FastR2D2CrossSentence.pair_view e1 = Ok pairs1 /\
    pairwise_events (FastR2D2CrossSentence.task_id self) pairs1 logits1 evs1 /\
    cross_entropy env logits1 labels = Returned ce /\
    item_loss results = Some bilm /\
    samples_of results masks points /\
    (exists w w',
       force_encode env (FastR2D2CrossSentence.parser self)
         (FastR2D2CrossSentence.r2d2 self)
         flat_ids flat_mask atom_spans w = (Returned e2, w')) /\
    FastR2D2CrossSentence.pair_view e2 = Ok pairs2 /\
    pairwise_events (FastR2D2CrossSentence.task_id self) pairs2 logits2 evs2 /\
    cross_entropy env logits2 labels = Returned fel /\
    out = Loss (fel + ce + kl + bilm)%R.
Proof.
  unfold FastR2D2CrossSentence.forward. intros H.
  destruct (FastR2D2CrossSentence.disable_parser self) eqn:Hd;
    cbn [negb] in H; run_ok H.
  all: do 19 eexists; do 2 (split; [eassumption|]);
    refine (conj _ (conj _ _)).
  2: reflexivity.
  4: eexists; reflexivity.
  2, 4: facts.
  all: log_eq.
Qed.

End Training.

(** ** Inference runs *)

Section Inference.
Context {world : Type} (env : Imports world).

(** An inference call of the single-sentence head that returns: the
    events that produce the pooled matrix, then the classifier call. *)
Lemma classification_inference_run (self : FastR2D2Classification.t world)
    (input_ids attention_mask : tensor Z) (num_samples : Z)
    (atom_spans : option AtomSpans) (force_encoding : bool)
    (s s' : state world) (out : output) :
  FastR2D2Classification.forward env self input_ids attention_mask num_samples
    atom_spans None force_encoding s = (Ok out, s') ->
  exists evs e logits,
    trace s' = trace s ++ evs ++ [EvClassifier e (Returned logits)] /\
    out = Probs (softmax logits) /\
    if force_encoding
    then FastR2D2Classification.disable_parser self = false /\
         evs = [EvForceEncode input_ids attention_mask atom_spans (Returned e)]
    else exists s_indices results ids,
           evs = guide_events input_ids attention_mask atom_spans s_indices
                 ++ [EvEncoder input_ids attention_mask
                       {| merge_trajectories := Some s_indices;
                          sample_trees := None;
                          recover_tree := Some true;
                          keep_tensor_cache := Some true;
                          lm_loss := Some false |} (Returned results);
                     EvGather ids [E_IJ]] /\
           (if FastR2D2Classification.disable_parser self
            then s_indices = None
            else exists guidance, s_indices = Some guidance) /\
           pooled_from results ids e.
Proof.
  unfold FastR2D2Classification.forward. intros H.
  destruct force_encoding,
    (FastR2D2Classification.disable_parser self) eqn:Hd;
    cbn [negb] in H; run_ok H.
  - do 3 eexists. refine (conj _ (conj eq_refl (conj eq_refl eq_refl))).
    log_eq.
  - do 3 eexists. refine (conj _ (conj eq_refl _)).
    2: { exists None. do 2 eexists. split; [reflexivity|]. split; [reflexivity|]. facts. }
    log_eq.
  - do 3 eexists. refine (conj _ (conj eq_refl _)).
    2: { eexists (Some _). do 2 eexists. split; [reflexivity|]. split; [eauto|]. facts. }
    log_eq.
Qed.

Lemma cross_sentence_inference_run (self : FastR2D2CrossSentence.t world)
    (input_ids attention_mask : tensor Z) (num_samples : Z)
    (atom_spans : option AtomSpans) (force_encoding : bool)
    (s s' : state world) (out : output) :
  FastR2D2CrossSentence.forward env self input_ids attention_mask num_samples
    atom_spans None force_encoding s = (Ok out, s') ->
  exists flat_ids flat_mask evs e pairs logits pair_evs,
    FastR2D2CrossSentence.flatten_pairs input_ids = Ok flat_ids /\
    FastR2D2CrossSentence.flatten_pairs attention_mask = Ok flat_mask /\
    trace s' = trace s ++ evs ++ pair_evs /\
    out = Probs (softmax logits) /\
    FastR2D2CrossSentence.pair_view e = Ok pairs /\
    pairwise_events (FastR2D2CrossSentence.task_id self) pairs logits pair_evs /\
    if force_encoding
    then FastR2D2CrossSentence.disable_parser self = false /\
         evs = [EvForceEncode flat_ids flat_mask atom_spans (Returned e)]
    else exists s_indices results ids,
           evs = guide_events flat_ids flat_mask atom_spans s_indices
                 ++ [EvEncoder flat_ids flat_mask
                       {| merge_trajectories := Some s_indices;
                          sample_trees := None;
                          recover_tree := Some true;
                          keep_tensor_cache := Some true;
                          lm_loss := Some false |} (Returned results);
                     EvGather ids [E_IJ]] /\
           (if FastR2D2CrossSentence.disable_parser self
            then s_indices = None
            else exists guidance, s_indices = Some guidance) /\
           pooled_from results ids e.
Proof.
  unfold FastR2D2CrossSentence.forward. intros H.
  destruct force_encoding,
    (FastR2D2CrossSentence.disable_parser self) eqn:Hd;
    cbn [negb] in H; run_ok H.
  all: do 7 eexists; do 2 (split; [eassumption|]);
    refine (conj _ (conj eq_refl (conj _ (conj _ _)))).
  all: try eassumption.
  2: split; reflexivity.
  1: log_eq.
  2: { exists None. do 2 eexists. split; [reflexivity|]. split; [reflexivity|]. facts. }
  1: log_eq.
  2: { eexists (Some _). do 2 eexists. split; [reflexivity|]. split; [eauto|]. facts. }
  log_eq.
Qed.

End Inference.

(** * The claims *)

Section Claims.
Context {world : Type} (env : Imports world).

(** A training run of either head, in the vocabulary of the two heads. *)
Lemma training_run (h : head world) input_ids attention_mask num_samples
    atom_spans labels force_encoding (s s' : state world) out :
  forward_of env h input_ids attention_mask num_samples atom_spans
    (Some labels) force_encoding s = (Ok out, s') ->
  exists flat_ids flat_mask evs1 e2 evs2 ce bilm kl fel,
    tokens_for h input_ids = Ok flat_ids /\
    tokens_for h attention_mask = Ok flat_mask /\
    trace s' = trace s ++ evs1
               ++ [EvForceEncode flat_ids flat_mask atom_spans (Returned e2)]
               ++ evs2 /\
    count is_force_encode_call evs1 = 0 /\
    count is_force_encode_call evs2 = 0 /\
    (exists w w',
       force_encode env (parser_of h) (r2d2_of h) flat_ids flat_mask
         atom_spans w = (Returned e2, w')) /\
    training_terms env h labels
      (evs1 ++ [EvForceEncode flat_ids flat_mask atom_spans (Returned e2)] ++ evs2)
      ce bilm kl fel /\
    out = Loss (fel + ce + kl + bilm)%R.
Proof.
  destruct h as [self|self]; cbn [forward_of]; intros H.
  - apply classification_training_run in H
      as (s_indices & results & ids & e1 & logits1 & ce & bilm & kl_evs & kl
          & e2 & logits2 & fel & Htr & Hpar & Hpool & Hce & Hbilm & Hfe & Hfel & ->).
    exists input_ids, attention_mask.
    exists (guide_events input_ids attention_mask atom_spans s_indices
            ++ [EvEncoder input_ids attention_mask
                  {| merge_trajectories := Some s_indices;
                     sample_trees := Some num_samples;
                     recover_tree := Some true;
                     keep_tensor_cache := Some true;
                     lm_loss := None |} (Returned results);
                EvGather ids [E_IJ]; EvClassifier e1 (Returned logits1)]
            ++ kl_evs).
    exists e2, [EvClassifier e2 (Returned logits2)], ce, bilm, kl, fel.
    split; [done|]. split; [done|]. split.
    { rewrite Htr, <- !app_assoc. done. }
    split.
    { rewrite !count_app.
      destruct (FastR2D2Classification.disable_parser self).
      - destruct Hpar as (-> & -> & _). done.
      - destruct Hpar as (g & masks & points & -> & _ & ->). done. }
    split; [done|]. split; [exact Hfe|]. split; [|done].
    unfold training_terms.
    exists input_ids, attention_mask, atom_spans, s_indices.
    do 2 eexists. exists ids, e1, [EvClassifier e1 (Returned logits1)], logits1.
    exists kl_evs, e2, [EvClassifier e2 (Returned logits2)], logits2.
    split; [rewrite <- !app_assoc; reflexivity|].
    repeat split; try done.
    destruct (FastR2D2Classification.disable_parser self).
    + left. tauto.
    + right. destruct Hpar as (g & masks & points & _ & ? & ->). eauto.
  - apply cross_sentence_training_run in H
      as (flat_ids & flat_mask & s_indices & results & ids & e1 & pairs1
          & logits1 & evs1 & ce & bilm & masks & points & kl & e2 & pairs2
          & logits2 & evs2 & fel & Hfi & Hfm & Htr & Hpar & Hpool & Hp1 & Hev1
          & Hce & Hbilm & Hsam & Hfe & Hp2 & Hev2 & Hfel & ->).
    exists flat_ids, flat_mask.
    exists (guide_events flat_ids flat_mask atom_spans s_indices
            ++ [EvEncoder flat_ids flat_mask
                  {| merge_trajectories := Some s_indices;
                     sample_trees := Some num_samples;
                     recover_tree := Some true;
                     keep_tensor_cache := Some true;
                     lm_loss := Some true |} (Returned results);
                EvGather ids [E_IJ]]
            ++ evs1
            ++ [EvParserKL flat_ids flat_mask masks points (Returned kl)]).
    exists e2, evs2, ce, bilm, kl, fel.
    split; [done|]. split; [done|]. split.
    { rewrite Htr, <- !app_assoc. done. }
    assert (forall p l ev, pairwise_events (FastR2D2CrossSentence.task_id self) p l ev ->
              count is_force_encode_call ev = 0) as Hcount.
    { intros p l ev (? & ? & ? & ? & ? & ? & _ & _ & _ & _ & ->). done. }
    split.
    { rewrite !count_app, (Hcount _ _ _ Hev1).
      destruct s_indices; done. }
    split; [exact (Hcount _ _ _ Hev2)|]. split; [exact Hfe|]. split; [|done].
    unfold training_terms.
    exists flat_ids, flat_mask, atom_spans, s_indices.
    do 2 eexists. exists ids, e1, evs1, logits1.
    exists [EvParserKL flat_ids flat_mask masks points (Returned kl)],
      e2, evs2, logits2.
    split; [rewrite <- !app_assoc; reflexivity|].
    repeat split; try done; cbn [classified]; eauto.
Qed.

(** C1. A training call (labels given) of either head that returns,
    returns the plain sum of four terms: the cross-entropy of the logits
    of the parsed path, the encoder's [results['loss']], the parser KL
    loss, and the cross-entropy of the logits of the force-encoding path.
    No term carries a coefficient. *)
Theorem C1_training_loss_is_unweighted_sum (h : head world)
    input_ids attention_mask num_samples atom_spans labels force_encoding
    (s s' : state world) out :
  forward_of env h input_ids attention_mask num_samples atom_spans
    (Some labels) force_encoding s = (Ok out, s') ->
  exists evs ce bilm kl fel,
    trace s' = trace s ++ evs /\
    training_terms env h labels evs ce bilm kl fel /\
    out = Loss (fel + ce + kl + bilm)%R.
Proof.
  intros H. apply training_run in H
    as (fi & fm & evs1 & e2 & evs2 & ce & bilm & kl & fel
        & _ & _ & Htr & _ & _ & _ & Hterms & ->).
  eauto 10.
Qed.

(** C9. Whatever [disable_parser] says, a training call of either head
    never raises an exception of the file's own, so never the
    configuration error of forced inference; and when it returns,
    [force_encode] was called exactly once, on the head's own parser and
    encoder, and the cross-entropy of its logits is a term of the sum. *)
Theorem C9_training_always_force_encodes (h : head world)
    input_ids attention_mask num_samples atom_spans labels force_encoding
    (s s' : state world) r :
  forward_of env h input_ids attention_mask num_samples atom_spans
    (Some labels) force_encoding s = (r, s') ->
  r <> Raise config_error /\
  forall out, r = Ok out ->
    exists flat_ids flat_mask evs e2 ce bilm kl fel w w',
      tokens_for h input_ids = Ok flat_ids /\
      tokens_for h attention_mask = Ok flat_mask /\
      trace s' = trace s ++ evs /\
      count is_force_encode_call evs = 1 /\
      In (EvForceEncode flat_ids flat_mask atom_spans (Returned e2)) evs /\
      force_encode env (parser_of h) (r2d2_of h) flat_ids flat_mask
        atom_spans w = (Returned e2, w') /\
      training_terms env h labels evs ce bilm kl fel /\
      out = Loss (fel + ce + kl + bilm)%R.
Proof.
  intros H. split.
  - intros ->. apply training_quiet in H. apply H. exact I.
  - intros out ->. apply training_run in H
      as (fi & fm & evs1 & e2 & evs2 & ce & bilm & kl & fel
          & Hfi & Hfm & Htr & Hc1 & Hc2 & (w & w' & Hfe) & Hterms & ->).
    exists fi, fm. eexists. exists e2, ce, bilm, kl, fel, w, w'.
    split; [done|]. split; [done|]. split; [exact Htr|].
    split; [rewrite !count_app, Hc1, Hc2; done|].
    split; [apply in_or_app; right; left; done|]. done.
Qed.

(** C10. With labels given, the result and the final state of [forward]
    do not depend on [force_encoding]. *)
Theorem C10_training_ignores_force_encoding (h : head world)
    input_ids attention_mask num_samples atom_spans labels
    (flag flag' : bool) (s : state world) :
  forward_of env h input_ids attention_mask num_samples atom_spans
    (Some labels) flag s
  = forward_of env h input_ids attention_mask num_samples atom_spans
      (Some labels) flag' s.
Proof. destruct h; reflexivity. Qed.

(** C3. An inference call (no labels) with [force_encoding] on a head
    whose parser is disabled raises, and leaves the world and the log as
    they were: no collaborator was called.  For the single-sentence head,
    and for the cross-sentence head whenever its two inputs can be
    flattened, what it raises is the configuration error with its
    message. *)
Theorem C3_forced_inference_needs_parser (h : head world)
    input_ids attention_mask num_samples atom_spans (s : state world) :
  disable_parser_of h = true ->
  exists e,
    forward_of env h input_ids attention_mask num_samples atom_spans
      None true s = (Raise e, s) /\
    ((exists i m, tokens_for h input_ids = Ok i /\
                  tokens_for h attention_mask = Ok m) ->
     e = Exception_ "Force encoding is not supported when disable_parser == True").
Proof.
  destruct h as [self|self]; cbn [disable_parser_of forward_of tokens_for];
    intros Hd.
  - unfold FastR2D2Classification.forward. rewrite Hd.
    eexists. split; [reflexivity|]. done.
  - unfold FastR2D2CrossSentence.forward. rewrite Hd.
    destruct (FastR2D2CrossSentence.flatten_pairs input_ids) as [i|e1] eqn:Hi.
    + destruct (FastR2D2CrossSentence.flatten_pairs attention_mask)
        as [m|e2] eqn:Hm.
      * eexists. split; [reflexivity|]. done.
      * eexists. split; [reflexivity|]. intros (? & ? & _ & [=]).
    + eexists. split; [reflexivity|]. intros (? & ? & [=] & _).
Qed.

(** An inference run of either head. *)
Lemma inference_run (h : head world) input_ids attention_mask num_samples
    atom_spans force_encoding (s s' : state world) out :
  forward_of env h input_ids attention_mask num_samples atom_spans
    None force_encoding s = (Ok out, s') ->
  exists flat_ids flat_mask evs e cls logits,
    tokens_for h input_ids = Ok flat_ids /\
    tokens_for h attention_mask = Ok flat_mask /\
    trace s' = trace s ++ evs ++ cls /\
    classified h e logits cls /\
    out = Probs (softmax logits) /\
    if force_encoding
    then disable_parser_of h = false /\
         evs = [EvForceEncode flat_ids flat_mask atom_spans (Returned e)]
    else exists s_indices results ids,
           evs = guide_events flat_ids flat_mask atom_spans s_indices
                 ++ [EvEncoder flat_ids flat_mask
                       {| merge_trajectories := Some s_indices;
                          sample_trees := None;
                          recover_tree := Some true;
                          keep_tensor_cache := Some true;
                          lm_loss := Some false |} (Returned results);
                     EvGather ids [E_IJ]] /\
           (if disable_parser_of h
            then s_indices = None
            else exists guidance, s_indices = Some guidance) /\
           pooled_from results ids e.
Proof.
  destruct h as [self|self]; cbn [forward_of disable_parser_of tokens_for];
    intros H.
  - apply classification_inference_run in H
      as (evs & e & logits & Htr & -> & Hmode).
    exists input_ids, attention_mask, evs, e,
      [EvClassifier e (Returned logits)], logits.
    repeat split; done.
  - apply cross_sentence_inference_run in H
      as (fi & fm & evs & e & pairs & logits & pevs & Hfi & Hfm & Htr & ->
          & Hp & Hev & Hmode).
    exists fi, fm, evs, e, pevs, logits.
    repeat split; try done. cbn [classified]. eauto.
Qed.

Lemma classified_no_encoder (h : head world) e logits cls :
  classified h e logits cls -> count is_encoder_call cls = 0.
Proof.
  destruct h as [self|self]; cbn [classified].
  - intros ->. done.
  - intros (pairs & _ & (? & ? & ? & ? & ? & ? & _ & _ & _ & _ & ->)). done.
Qed.

(** C7. A parsed-mode inference call (no labels, [force_encoding] off)
    of either head that returns has logged, in this order: the parser
    call for guidance when the parser is enabled (none otherwise), one
    encoder call that is given that guidance, no [sample_trees] and
    [lm_loss=False], the gather of the [E_IJ] slot at the root ids of the
    tables, and the head's classification of the pooled matrix.  The
    encoder is called once, and the output is the softmax of the logits. *)
Theorem C7_parsed_inference (h : head world)
    input_ids attention_mask num_samples atom_spans (s s' : state world) out :
  forward_of env h input_ids attention_mask num_samples atom_spans
    None false s = (Ok out, s') ->
  exists flat_ids flat_mask s_indices results ids e cls logits evs,
    tokens_for h input_ids = Ok flat_ids /\
    tokens_for h attention_mask = Ok flat_mask /\
    trace s' = trace s ++ evs /\
    evs = guide_events flat_ids flat_mask atom_spans s_indices
          ++ [EvEncoder flat_ids flat_mask
                {| merge_trajectories := Some s_indices;
                   sample_trees := None;
                   recover_tree := Some true;
                   keep_tensor_cache := Some true;
                   lm_loss := Some false |} (Returned results);
              EvGather ids [E_IJ]]
          ++ cls /\
    (if disable_parser_of h
     then s_indices = None
     else exists guidance, s_indices = Some guidance) /\
    count is_encoder_call evs = 1 /\
    pooled_from results ids e /\
    classified h e logits cls /\
    out = Probs (softmax logits).
Proof.
  intros H. apply inference_run in H
    as (fi & fm & evs & e & cls & logits & Hfi & Hfm & Htr & Hcls & ->
        & (s_indices & results & ids & -> & Hpar & Hpool)).
  exists fi, fm, s_indices, results, ids, e, cls, logits. eexists.
  split; [done|]. split; [done|]. split; [exact Htr|].
  split; [rewrite <- app_assoc; reflexivity|].
  split; [done|]. split; [|done].
  rewrite !count_app, (classified_no_encoder _ _ _ _ Hcls).
  destruct s_indices; done.
Qed.


End Claims.

(** C4. On a cache that holds the root id of every table, the pooling
    step logs one gather of the [E_IJ] slot alone, at the ids in table
    order, and returns a well-formed matrix with one row per table, row [i]
    being the [E_IJ] vector stored under [tables[i].root.best_node.cache_id].
    It is the pooled matrix of every encoder result with these tables and
    this cache. *)
Theorem C4_pooling_rows_in_table_order {world : Type}
    (tables : list Table) (cache : TensorCache) (s : state world) :
  populated cache tables ->
  exists e,
    root_vectors tables cache s
    = (Ok e,
       State (world_of s)
         (trace s ++ [EvGather ((fun t => cache_id (best_node (root t))) <$> tables)
                        [E_IJ]])) /\
    shape e = [length tables; hidden_size cache] /\
    well_formed e /\
    (forall i t, tables !! i = Some t ->
       exists v, cells cache !! cache_id (best_node (root t)) = Some v /\
                 example_row e i = v E_IJ) /\
    (forall results ids e',
       item_tables results = Some tables ->
       item_tensor_cache results = Some cache ->
       pooled_from results ids e' -> e' = e).
Proof.
  intros Hpop.
  destruct (gather_rows cache tables Hpop) as (e & Hg & Hshape & Hwf & Hrows).
  exists e. split.
  { unfold root_vectors, bind, log, lift. cbn [world_of trace].
    rewrite Hg, <- root_cache_ids_map. reflexivity. }
  repeat split; try done.
  intros results ids e' Ht Hc (tables' & cache' & Ht' & Hc' & -> & Hg').
  congruence.
Qed.

(** ** Training with the parser disabled *)

Section DisabledParser.
Context {world : Type} (env : Imports world).

(** The single-sentence head: no parser call at all, no guidance for the
    encoder, and the literal [0] as KL term. *)
Lemma classification_training_without_parser
    (self : FastR2D2Classification.t world)
    input_ids attention_mask num_samples atom_spans labels force_encoding
    (s s' : state world) out :
  FastR2D2Classification.disable_parser self = true ->
  FastR2D2Classification.forward env self input_ids attention_mask num_samples
    atom_spans (Some labels) force_encoding s = (Ok out, s') ->
  exists evs results ce bilm fel,
    trace s' = trace s ++ evs /\
    count is_parser_call evs = 0 /\
    In (EvEncoder input_ids attention_mask
          {| merge_trajectories := Some None;
             sample_trees := Some num_samples;
             recover_tree := Some true;
             keep_tensor_cache := Some true;
             lm_loss := None |} (Returned results)) evs /\
    out = Loss (fel + ce + 0 + bilm)%R.
Proof.
  intros Hd H. apply classification_training_run in H
    as (s_indices & results & ids & e1 & logits1 & ce & bilm & kl_evs & kl
        & e2 & logits2 & fel & Htr & Hpar & _ & _ & _ & _ & _ & ->).
  rewrite Hd in Hpar. destruct Hpar as (-> & -> & ->).
  eexists. exists results, ce, bilm, fel.
  split; [exact Htr|]. split; [reflexivity|]. split; [left; reflexivity|done].
Qed.

(** The cross-sentence head: no guidance for the encoder either, but one
    parser call, the one for the KL loss, whose value is in the sum. *)
Lemma cross_sentence_training_without_parser
    (self : FastR2D2CrossSentence.t world)
    input_ids attention_mask num_samples atom_spans labels force_encoding
    (s s' : state world) out :
  FastR2D2CrossSentence.disable_parser self = true ->
  FastR2D2CrossSentence.forward env self input_ids attention_mask num_samples
    atom_spans (Some labels) force_encoding s = (Ok out, s') ->
  exists flat_ids flat_mask evs results masks points ce bilm kl fel,
    trace s' = trace s ++ evs /\
    count is_parser_call evs = 1 /\
    In (EvEncoder flat_ids flat_mask
          {| merge_trajectories := Some None;
             sample_trees := Some num_samples;
             recover_tree := Some true;
             keep_tensor_cache := Some true;
             lm_loss := Some true |} (Returned results)) evs /\
    In (EvParserKL flat_ids flat_mask masks points (Returned kl)) evs /\
    out = Loss (fel + ce + kl + bilm)%R.
Proof.
  intros Hd H. apply cross_sentence_training_run in H
    as (flat_ids & flat_mask & s_indices & results & ids & e1 & pairs1
        & logits1 & evs1 & ce & bilm & masks & points & kl & e2 & pairs2
        & logits2 & evs2 & fel & _ & _ & Htr & Hpar & _ & _ & Hev1
        & _ & _ & _ & _ & _ & Hev2 & _ & ->).
  rewrite Hd in Hpar. subst s_indices.
  assert (forall p l ev,
            pairwise_events (FastR2D2CrossSentence.task_id self) p l ev ->
            count is_parser_call ev = 0) as Hcount.
  { intros p l ev (? & ? & ? & ? & ? & ? & _ & _ & _ & _ & ->). done. }
  exists flat_ids, flat_mask. eexists.
  exists results, masks, points, ce, bilm, kl, fel.
  split; [exact Htr|]. split.
  { cbn [guide_events]. rewrite !count_app.
    rewrite (Hcount _ _ _ Hev1), (Hcount _ _ _ Hev2). done. }
  split; [left; reflexivity|]. split; [|done].
  cbn [guide_events app]. right. right.
  apply in_or_app. right. left. reflexivity.
Qed.

End DisabledParser.

Section CrossSentenceClaims.
Context {world : Type} (env : Imports world).
Import FastR2D2CrossSentence.


Lemma pairwise_encoding_calls (self : t world) (pairs logits : tensor R)
    (s s' : state world) :
  pairwise_encoding self pairs s = (Ok logits, s') ->
  exists sz marker w1 unsqueezed triple outputs w2 fused w3,
    shape_first pairs = Ok sz /\
    embedding (r2d2 self) (full sz (task_id self)) (world_of s)
      = (Returned marker, w1) /\
    unsqueeze1 marker = Ok unsqueezed /\
    cat1 unsqueezed pairs = Ok triple /\
    tree_decoder (r2d2 self) triple w1 = (Returned outputs, w2) /\
    select1_0 outputs = Ok fused /\
    classifier self fused w2 = (Returned logits, w3) /\
    s' = State w3
           (trace s ++ [EvEmbedding (full sz (task_id self)) (Returned marker);
                        EvTreeDecoder triple (Returned outputs);
                        EvClassifier fused (Returned logits)]).
Proof.
  unfold pairwise_encoding. intros H.
  run_steps_with ltac:(fun _ => fail) H. log_normal.
  do 9 eexists. repeat split; eassumption.
Qed.

Lemma cat1_inv {A} (u p x : tensor A) n rest P D :
  shape u = n :: 1 :: rest -> shape p = [P; 2; D] ->
  cat1 u p = Ok x -> n = P /\ rest = [D].
Proof.
  unfold cat1. intros -> ->.
  destruct P, n; destruct (decide _) as [[? ?]|]; intros [=]; done.
Qed.

(** C6. On pooled pairs of shape [(P, 2, D)], with an embedding and a
    tree decoder that return well-formed tensors, the decoder keeping the
    shape: the combiner looks up the embedding of [task_id] repeated [P]
    times, puts each marker in front of its two pooled vectors, runs the
    tree decoder on the triples, takes the output at position 0 of each
    and gives it to the classifier, whose logits it returns. *)
Theorem C6_pairwise_combiner (self : t world) (pairs logits : tensor R)
    (P D : nat) (s s' : state world) :
  shape pairs = [P; 2; D] ->
  well_formed pairs ->
  (forall ids w m w', embedding (r2d2 self) ids w = (Returned m, w') ->
                      well_formed m) ->
  (forall x w o w', tree_decoder (r2d2 self) x w = (Returned o, w') ->
                    shape o = shape x /\ (well_formed x -> well_formed o)) ->
  pairwise_encoding self pairs s = (Ok logits, s') ->
  exists marker triple outputs fused,
    trace s' = trace s ++ [EvEmbedding (full P (task_id self)) (Returned marker);
                           EvTreeDecoder triple (Returned outputs);
                           EvClassifier fused (Returned logits)] /\
    (forall b, b < P -> get (full P (task_id self)) [b] = Some (task_id self)) /\
    shape marker = [P; D] /\
    shape triple = [P; 3; D] /\
    (forall b d,
       get triple [b; 0; d] = get marker [b; d] /\
       get triple [b; 1; d] = get pairs [b; 0; d] /\
       get triple [b; 2; d] = get pairs [b; 1; d]) /\
    shape fused = [P; D] /\
    (forall b d, get fused [b; d] = get outputs [b; 0; d]).
Proof.
  intros Hs Hwf Hemb Hdec H.
  apply pairwise_encoding_calls in H
    as (sz & marker & w1 & u & triple & outputs & w2 & fused & w3
        & Hsz & Hcall & Hu & Hcat & Hdecode & Hsel & _ & ->).
  unfold shape_first in Hsz. rewrite Hs in Hsz. injection Hsz as <-.
  pose proof (Hemb _ _ _ _ Hcall) as Hwm.
  destruct marker as [sm lm]. unfold unsqueeze1 in Hu. cbn [shape data] in Hu.
  destruct sm as [|n rest]; [discriminate|]. injection Hu as <-.
  destruct (cat1_inv (Tensor (n :: 1 :: rest) lm) _ _ n rest P D eq_refl Hs Hcat)
    as [-> ->].
  destruct (cat1_prepend (Tensor [P; 1; D] lm) pairs P D eq_refl Hs)
    as (x & Hx & Hxs & Hxwf & Hxget); [|done|].
  { unfold well_formed, numel in *. cbn [shape data prod_list foldr] in *. lia. }
  rewrite Hx in Hcat. injection Hcat as ->.
  destruct (Hdec _ _ _ _ Hdecode) as [Hos Howf]. rewrite Hxs in Hos.
  destruct (select1_0_first outputs P 3 D Hos) as (h & Hh & Hhs & Hhget);
    [lia|auto|].
  rewrite Hh in Hsel. injection Hsel as ->.
  exists (Tensor [P; D] lm), triple, outputs, fused.
  split; [done|]. split.
  { intros b Hb. unfold get, ravel, full. cbn [shape data ravel_from].
    destruct (Nat.ltb_spec b P); [|lia]. apply lookup_replicate_2. done. }
  split; [done|]. split; [done|]. split; [|done].
  intros b d. destruct (Hxget b d) as (H0 & H1 & H2).
  split; [|done]. rewrite H0, get3, get2.
  destruct (b <? P), (d <? D); cbn [Nat.ltb Nat.leb andb]; try done.
  f_equal. lia.
Qed.

End CrossSentenceClaims.

(** C2, on the code: a training call of the cross-sentence head with the
    parser disabled still calls the parser for the KL loss, and the value
    the parser returns, 5 here, is a term of the returned sum. *)
Theorem C2_cross_sentence_kl_with_parser_disabled :
  exists s',
    FastR2D2CrossSentence.forward Stub.the_imports (Stub.cross true)
      Stub.ids_pair Stub.mask_pair 1 None (Some Stub.labels1) false Stub.start
    = (Ok (Loss (2 + 2 + 5 + 3)%R), s') /\
    FastR2D2CrossSentence.disable_parser (Stub.cross true) = true /\
    count is_parser_call (trace s') = 1 /\
    In (EvParserKL (Tensor [2; 3] [1; 2; 3; 4; 5; 6]%Z)
          (Tensor [2; 3] [1; 1; 1; 1; 1; 1]%Z)
          (Tensor [1] [1%Z]) (Tensor [1] [0%Z]) (Returned 5%R))
       (trace s').
Proof.
  eexists. split; [vm_compute; reflexivity|].
  split; [reflexivity|]. split; [vm_compute; reflexivity|].
  vm_compute. tauto.
Qed.

(** * The theorems at work on the stand-ins *)

Lemma C1_witness :
  exists out s',
    forward_of Stub.the_imports (Cross (Stub.cross false))
      Stub.ids_pair Stub.mask_pair 1 None (Some Stub.labels1) false Stub.start
    = (Ok out, s') /\
    exists evs ce bilm kl fel,
      trace s' = trace Stub.start ++ evs /\
      training_terms Stub.the_imports (Cross (Stub.cross false)) Stub.labels1
        evs ce bilm kl fel /\
      out = Loss (fel + ce + kl + bilm)%R.
Proof.
  do 2 eexists. split; [vm_compute; reflexivity|].
  eapply (C1_training_loss_is_unweighted_sum Stub.the_imports
           (Cross (Stub.cross false)) Stub.ids_pair Stub.mask_pair 1 None
           Stub.labels1 false Stub.start).
  vm_compute. reflexivity.
Defined.

Lemma C9_witness :
  exists r s',
    forward_of Stub.the_imports (Single (Stub.single true))
      Stub.ids2 Stub.mask2 1 None (Some Stub.labels2) false Stub.start
    = (r, s') /\
    r <> Raise config_error /\
    forall out, r = Ok out ->
      exists flat_ids flat_mask evs e2 ce bilm kl fel w w',
        tokens_for (Single (Stub.single true)) Stub.ids2 = Ok flat_ids /\
        tokens_for (Single (Stub.single true)) Stub.mask2 = Ok flat_mask /\
        trace s' = trace Stub.start ++ evs /\
        count is_force_encode_call evs = 1 /\
        In (EvForceEncode flat_ids flat_mask None (Returned e2)) evs /\
        force_encode Stub.the_imports (parser_of (Single (Stub.single true)))
          (r2d2_of (Single (Stub.single true))) flat_ids flat_mask None w
        = (Returned e2, w') /\
        training_terms Stub.the_imports (Single (Stub.single true)) Stub.labels2
          evs ce bilm kl fel /\
        out = Loss (fel + ce + kl + bilm)%R.
Proof.
  do 2 eexists. split; [vm_compute; reflexivity|].
  eapply (C9_training_always_force_encodes Stub.the_imports
           (Single (Stub.single true)) Stub.ids2 Stub.mask2 1 None
           Stub.labels2 false Stub.start).
  vm_compute. reflexivity.
Defined.

Lemma C3_witness :
  exists e,
    forward_of Stub.the_imports (Cross (Stub.cross true))
      Stub.ids_pair Stub.mask_pair 0 None None true Stub.start
    = (Raise e, Stub.start) /\
    ((exists i m, tokens_for (Cross (Stub.cross true)) Stub.ids_pair = Ok i /\
                  tokens_for (Cross (Stub.cross true)) Stub.mask_pair = Ok m) ->
     e = Exception_ "Force encoding is not supported when disable_parser == True").
Proof.
  eapply (C3_forced_inference_needs_parser Stub.the_imports
           (Cross (Stub.cross true)) Stub.ids_pair Stub.mask_pair 0 None
           Stub.start).
  reflexivity.
Defined.

Lemma C7_witness :
  exists out s',
    forward_of Stub.the_imports (Cross (Stub.cross false))
      Stub.ids_pair Stub.mask_pair 0 None None false Stub.start
    = (Ok out, s') /\
    exists flat_ids flat_mask s_indices results ids e cls logits evs,
      tokens_for (Cross (Stub.cross false)) Stub.ids_pair = Ok flat_ids /\
      tokens_for (Cross (Stub.cross false)) Stub.mask_pair = Ok flat_mask /\
      trace s' = trace Stub.start ++ evs /\
      evs = guide_events flat_ids flat_mask None s_indices
            ++ [EvEncoder flat_ids flat_mask
                  {| merge_trajectories := Some s_indices;
                     sample_trees := None;
                     recover_tree := Some true;
                     keep_tensor_cache := Some true;
                     lm_loss := Some false |} (Returned results);
                EvGather ids [E_IJ]]
            ++ cls /\
      (if disable_parser_of (Cross (Stub.cross false))
       then s_indices = None
       else exists guidance, s_indices = Some guidance) /\
      count is_encoder_call evs = 1 /\
      pooled_from results ids e /\
      classified (Cross (Stub.cross false)) e logits cls /\
      out = Probs (softmax logits).
Proof.
  do 2 eexists. split; [vm_compute; reflexivity|].
  eapply (C7_parsed_inference Stub.the_imports (Cross (Stub.cross false))
           Stub.ids_pair Stub.mask_pair 0 None Stub.start).
  vm_compute. reflexivity.
Defined.


Lemma C4_witness :
  exists e,
    root_vectors Stub.the_tables Stub.the_cache Stub.start
    = (Ok e,
       State (world_of Stub.start)
         (trace Stub.start
          ++ [EvGather ((fun t => cache_id (best_node (root t))) <$> Stub.the_tables)
                [E_IJ]])) /\
    shape e = [length Stub.the_tables; hidden_size Stub.the_cache] /\
    well_formed e /\
    (forall i t, Stub.the_tables !! i = Some t ->
       exists v, cells Stub.the_cache !! cache_id (best_node (root t)) = Some v /\
                 example_row e i = v E_IJ) /\
    (forall results ids e',
       item_tables results = Some Stub.the_tables ->
       item_tensor_cache results = Some Stub.the_cache ->
       pooled_from results ids e' -> e' = e).
Proof.
  eapply (C4_pooling_rows_in_table_order Stub.the_tables Stub.the_cache Stub.start).
  unfold populated, Stub.the_tables.
  apply List.Forall_cons; [eexists; split; [vm_compute; reflexivity|reflexivity]|].
  apply List.Forall_cons; [eexists; split; [vm_compute; reflexivity|reflexivity]|].
  apply List.Forall_nil.
Defined.


Lemma C6_witness :
  exists logits s',
    FastR2D2CrossSentence.pairwise_encoding (Stub.cross false)
      (Tensor [1; 2; 2] [1%R; 2%R; 3%R; 4%R]) Stub.start = (Ok logits, s') /\
    exists marker triple outputs fused,
      trace s' = trace Stub.start
                 ++ [EvEmbedding (full 1 9) (Returned marker);
                     EvTreeDecoder triple (Returned outputs);
                     EvClassifier fused (Returned logits)] /\
      (forall b, b < 1 -> get (full 1 9) [b] = Some 9%Z) /\
      shape marker = [1; 2] /\
      shape triple = [1; 3; 2] /\
      (forall b d,
         get triple [b; 0; d] = get marker [b; d] /\
         get triple [b; 1; d] = get (Tensor [1; 2; 2] [1%R; 2%R; 3%R; 4%R]) [b; 0; d] /\
         get triple [b; 2; d] = get (Tensor [1; 2; 2] [1%R; 2%R; 3%R; 4%R]) [b; 1; d]) /\
      shape fused = [1; 2] /\
      (forall b d, get fused [b; d] = get outputs [b; 0; d]).
Proof.
  do 2 eexists. split; [vm_compute; reflexivity|].
  eapply (C6_pairwise_combiner (Stub.cross false)
           (Tensor [1; 2; 2] [1%R; 2%R; 3%R; 4%R]) _ 1 2 Stub.start).
  - reflexivity.
  - reflexivity.
  - intros ids w m w' [= <- _]. unfold well_formed, numel. cbn.
    rewrite length_replicate. lia.
  - intros x w o w' [= <- _]. split; [reflexivity|auto].
  - vm_compute. reflexivity.
Defined.

(** * Further properties *)

(** ** The two views of the cross-sentence head *)

Lemma last_divides (shp : list nat) (L : nat) :
  last shp = Some L -> exists c, prod_list shp = c * L.
Proof.
  induction shp as [|a shp IH]; [done|].
  destruct shp as [|b shp].
  - intros [= ->]. exists 1. cbn. lia.
  - intros H. destruct (IH H) as [c Hc]. exists (a * c).
    change (prod_list (a :: b :: shp)) with (a * prod_list (b :: shp)).
    rewrite Hc. lia.
Qed.

Section ViewsAgain.
Context {A : Type}.
Implicit Types x e : tensor A.
Import FastR2D2CrossSentence.

Lemma flatten_pairs_cases x :
  match last (shape x) with
  | None => flatten_pairs x = Raise (IndexError "tuple index out of range")
  | Some 0 => exists msg, flatten_pairs x = Raise (RuntimeError msg)
  | Some (S l) =>
      flatten_pairs x = Ok (Tensor [numel x / S l; S l] (data x)) /\
      numel x / S l * S l = numel x
  end.
Proof.
  unfold flatten_pairs, shape_last.
  destruct (last (shape x)) as [[|l]|] eqn:Hl; [| |done].
  - unfold view_infer. cbn. destruct (numel x =? 0); eauto.
  - destruct (last_divides _ _ Hl) as [c Hc]. unfold view_infer, numel.
    rewrite Hc. cbn [Nat.eqb].
    rewrite Nat.Div0.mod_mul, Nat.div_mul by lia. done.
Qed.


Lemma flatten_pairs_Ok x f :
  flatten_pairs x = Ok f ->
  exists L, last (shape x) = Some L /\ 0 < L /\
            f = Tensor [numel x / L; L] (data x) /\ numel x / L * L = numel x.
Proof.
  intros H. pose proof (flatten_pairs_cases x) as Hx.
  destruct (last (shape x)) as [[|l]|].
  - destruct Hx as [msg Hx]. congruence.
  - destruct Hx as [Hx Hn]. exists (S l). rewrite Hx in H.
    injection H as <-. repeat split; [lia|done].
  - congruence.
Qed.

Lemma flatten_pairs_idempotent x f :
  flatten_pairs x = Ok f -> flatten_pairs f = Ok f.
Proof.
  intros H. apply flatten_pairs_Ok in H as (L & _ & HL & -> & Hn).
  destruct L as [|l]; [lia|].
  pose proof (flatten_pairs_cases
                (Tensor [numel x / S l; S l] (data x))) as Hf.
  cbn [shape last data] in Hf. destruct Hf as [-> _].
  unfold numel at 1. cbn [shape prod_list foldr].
  rewrite Nat.mul_1_r, Hn. done.
Qed.


Lemma pair_view_cases e (N D : nat) :
  shape e = [N; D] ->
  if Nat.even N || (D =? 0)
  then pair_view e = Ok (Tensor [N / 2; 2; D] (data e))
  else pair_view e = Raise (RuntimeError "shape is invalid for input size").
Proof.
  intros He. unfold pair_view, shape_first, shape_last, view, numel.
  rewrite He. cbn [last prod_list foldr].
  destruct (Nat.even N) eqn:Hev; cbn [orb].
  - apply Nat.even_spec in Hev as [k ->].
    replace (2 * k / 2) with k by (rewrite Nat.mul_comm, Nat.div_mul; lia).
    destruct (Nat.eqb_spec (2 * k * (D * 1)) (k * (2 * (D * 1)))); [done|lia].
  - destruct (Nat.eqb_spec D 0) as [->|HD].
    + destruct (Nat.eqb_spec (N * (0 * 1)) (N / 2 * (2 * (0 * 1)))); [done|lia].
    + assert (Nat.odd N = true) as Hodd
        by (rewrite <- Nat.negb_even, Hev; done).
      apply Nat.odd_spec in Hodd as [k ->].
      replace ((2 * k + 1) / 2) with k
        by (apply (Nat.div_unique _ 2 k 1); lia).
      destruct (Nat.eqb_spec ((2 * k + 1) * (D * 1)) (k * (2 * (D * 1))));
        [nia|done].
Qed.

(** X4. [e.view(N // 2, 2, D)] on a matrix of [N] rows: accepted exactly
    when the rows pair up, that is when [N] is even or the rows are
    empty; an odd number of non-empty rows is a [RuntimeError]. *)
Theorem X4_pair_view_needs_even_rows e (N D : nat) :
  shape e = [N; D] ->
  if Nat.even N || (D =? 0)
  then pair_view e = Ok (Tensor [N / 2; 2; D] (data e))
  else pair_view e = Raise (RuntimeError "shape is invalid for input size").
Proof. exact (pair_view_cases e N D). Qed.

End ViewsAgain.

(** ** Runs of the cross-sentence head that end early *)

Section EarlyEnds.
Context {world : Type} (env : Imports world).
Import FastR2D2CrossSentence.

(** X2. The cross-sentence head treats an input that is already flat like
    the input it flattens to: calling [forward] on the [(B, 2, L)] tensors
    or on their [(2B, L)] views gives the same result and the same final
    state. *)
Theorem X2_flat_input_accepted (self : t world)
    input_ids attention_mask num_samples atom_spans labels force_encoding
    flat_ids flat_mask (s : state world) :
  flatten_pairs input_ids = Ok flat_ids ->
  flatten_pairs attention_mask = Ok flat_mask ->
  forward env self input_ids attention_mask num_samples atom_spans labels
    force_encoding s
  = forward env self flat_ids flat_mask num_samples atom_spans labels
      force_encoding s.
Proof.
  intros Hi Hm. unfold forward.
  rewrite (flatten_pairs_idempotent _ _ Hi), (flatten_pairs_idempotent _ _ Hm).
  rewrite Hi, Hm. reflexivity.
Qed.

(** X5. Forced inference of the cross-sentence head on an odd number of
    non-empty pooled rows: the rows cannot be paired, so the call raises
    the [RuntimeError] of [view] right after [force_encode], before the
    embedding, the tree decoder and the classifier are called. *)
Theorem X5_odd_rows_cannot_be_paired (self : t world)
    input_ids attention_mask num_samples atom_spans flat_ids flat_mask
    (e : tensor R) (N D : nat) (s : state world) (w' : world) :
  disable_parser self = false ->
  flatten_pairs input_ids = Ok flat_ids ->
  flatten_pairs attention_mask = Ok flat_mask ->
  force_encode env (parser self) (r2d2 self) flat_ids flat_mask atom_spans
    (world_of s) = (Returned e, w') ->
  shape e = [N; D] -> Nat.even N = false -> 0 < D ->
  forward env self input_ids attention_mask num_samples atom_spans None true s
  = (Raise (RuntimeError "shape is invalid for input size"),
     State w' (trace s ++ [EvForceEncode flat_ids flat_mask atom_spans
                             (Returned e)])).
Proof.
  intros Hd Hi Hm Hfe He Hodd HD. unfold forward.
  rewrite Hi, Hm, Hd. cbn [negb].
  pose proof (pair_view_cases e N D He) as Hpv. rewrite Hodd in Hpv.
  destruct (Nat.eqb_spec D 0); [lia|]. cbn [orb] in Hpv.
  unfold bind, lift, call. rewrite Hfe. cbn [world_of trace]. rewrite Hpv.
  reflexivity.
Qed.

(** X9. Training the cross-sentence head, its parser disabled, on an
    encoder result without sampled trees: the result is still read for
    ['sampled_trees'], right after the tables and the cache, so the call
    ends in [KeyError('sampled_trees')] with the encoder call as the last
    call made. *)
Theorem X9_cross_sentence_training_needs_samples (self : t world)
    input_ids attention_mask num_samples atom_spans labels force_encoding
    flat_ids flat_mask results tables cache (s : state world) (w' : world) :
  disable_parser self = true ->
  flatten_pairs input_ids = Ok flat_ids ->
  flatten_pairs attention_mask = Ok flat_mask ->
  encode (r2d2 self) flat_ids flat_mask
    {| merge_trajectories := Some None;
       sample_trees := Some num_samples;
       recover_tree := Some true;
       keep_tensor_cache := Some true;
       lm_loss := Some true |} (world_of s) = (Returned results, w') ->
  item_tables results = Some tables ->
  item_tensor_cache results = Some cache ->
  item_sampled_trees results = None ->
  forward env self input_ids attention_mask num_samples atom_spans
    (Some labels) force_encoding s
  = (Raise (KeyError "sampled_trees"),
     State w' (trace s ++ [EvEncoder flat_ids flat_mask
                             {| merge_trajectories := Some None;
                                sample_trees := Some num_samples;
                                recover_tree := Some true;
                                keep_tensor_cache := Some true;
                                lm_loss := Some true |} (Returned results)])).
Proof.
  intros Hd Hi Hm Henc Ht Hc Hs. unfold forward.
  rewrite Hi, Hm, Hd. cbn [negb].
  unfold bind, lift, call, ret. cbn [world_of trace]. rewrite Henc.
  cbn [world_of trace]. rewrite Ht, Hc, Hs. reflexivity.
Qed.

(** X15. The combiner on pooled pairs of a width other than the
    embedding's: [torch.cat] refuses the two tensors, the call raises its
    [RuntimeError] after the embedding lookup, and neither the tree decoder
    nor the classifier is called. *)
Theorem X15_pairwise_width_mismatch (self : t world) (pairs marker : tensor R)
    (P D H : nat) (s : state world) (w' : world) :
  shape pairs = [P; 2; D] ->
  embedding (r2d2 self) (full P (task_id self)) (world_of s)
    = (Returned marker, w') ->
  shape marker = [P; H] -> H <> D ->
  pairwise_encoding self pairs s
  = (Raise (RuntimeError "Sizes of tensors must match except in dimension 1"),
     State w' (trace s ++ [EvEmbedding (full P (task_id self))
                             (Returned marker)])).
Proof.
  intros Hs Hcall Hm HD. unfold pairwise_encoding, shape_first.
  rewrite Hs. unfold bind, lift, call. rewrite Hcall. cbn [world_of trace].
  unfold unsqueeze1. rewrite Hm. unfold cat1. cbn [shape]. rewrite Hs.
  destruct P; (destruct (decide _) as [[_ [=]]|_]; [done|reflexivity]).
Qed.

End EarlyEnds.

(** ** Failures are propagated *)

Section Propagation.
Context {world : Type}.













End Propagation.


Section PropagationForward.
Context {world : Type} (env : Imports world).



End PropagationForward.

(** ** The exceptions of [forward] *)

Section RaisesOnly.
Context {world : Type} (ok : error -> Prop).

Lemma raises_only_ret {A} (a : A) : raises_only (world := world) ok (ret a).
Proof. intros s e s' [=]. Qed.

Lemma raises_only_raise {A} e :
  ok e -> raises_only (world := world) (A := A) ok (raise e).
Proof. intros He s e' s' [= <- _]. done. Qed.

Lemma raises_only_log ev : raises_only (world := world) ok (log ev).
Proof. intros s e s' [=]. Qed.

Lemma raises_only_call {A} (f : world -> outcome A * world) ev :
  (forall msg, ok (Propagated msg)) -> raises_only ok (call f ev).
Proof.
  intros Hok s e s'. unfold call.
  destruct (f (world_of s)) as [[a|msg] w']; intros [= <- _]. apply Hok.
Qed.

Lemma raises_only_lift_outcome {A} (o : outcome A) :
  (forall msg, ok (Propagated msg)) ->
  raises_only (world := world) ok (lift_outcome o).
Proof. intros Hok s e s'. destruct o; intros [= <- _]. apply Hok. Qed.

Lemma raises_only_getitem {A} key (v : option A) :
  ok (KeyError key) -> raises_only (world := world) ok (getitem key v).
Proof. intros Hok s e s'. destruct v; intros [= <- _]. done. Qed.

Lemma raises_only_item0 {A} (l : list A) :
  (forall e, torch_error e -> ok e) ->
  raises_only (world := world) ok (item0 l).
Proof. intros Hok s e s'. destruct l; intros [= <- _]. apply Hok. exact I. Qed.

Lemma raises_only_lift {A} (r : result A) :
  (forall e, torch_error e -> ok e) -> torch_only r ->
  raises_only (world := world) ok (lift r).
Proof. intros Hok Hr s e s' [= -> _]. apply Hok, (Hr e). done. Qed.

Lemma raises_only_bind {A B} (m : M world A) (k : A -> M world B) :
  raises_only ok m -> (forall a, raises_only ok (k a)) -> raises_only ok (bind m k).
Proof.
  intros Hm Hk s e s' H. apply bind_Raise in H as [H|(a & s1 & _ & H)].
  - exact (Hm _ _ _ H).
  - exact (Hk _ _ _ _ H).
Qed.

End RaisesOnly.

Ltac torch_only_tac :=
  intros e;
  repeat match goal with
         | |- context [match ?x with _ => _ end] => destruct x
         end;
  intros [= <-]; exact I.

Lemma gather_torch c ids slots : torch_only (gather c ids slots).
Proof. unfold gather. torch_only_tac. Qed.

Lemma shape_first_torch {A} (t : tensor A) : torch_only (shape_first t).
Proof. unfold shape_first. torch_only_tac. Qed.

Lemma shape_last_torch {A} (t : tensor A) : torch_only (shape_last t).
Proof. unfold shape_last. torch_only_tac. Qed.

Lemma view_torch {A} (t : tensor A) shp : torch_only (view t shp).
Proof. unfold view. torch_only_tac. Qed.

Lemma view_infer_torch {A} (t : tensor A) d : torch_only (view_infer t d).
Proof. unfold view_infer. torch_only_tac. Qed.

Lemma unsqueeze1_torch {A} (t : tensor A) : torch_only (unsqueeze1 t).
Proof. unfold unsqueeze1. torch_only_tac. Qed.

Lemma cat1_torch {A} (a b : tensor A) : torch_only (cat1 a b).
Proof. unfold cat1. torch_only_tac. Qed.

Lemma select1_0_torch {A} (t : tensor A) : torch_only (select1_0 t).
Proof. unfold select1_0. torch_only_tac. Qed.

Lemma flatten_pairs_torch {A} (t : tensor A) :
  torch_only (FastR2D2CrossSentence.flatten_pairs t).
Proof.
  unfold FastR2D2CrossSentence.flatten_pairs. intros e.
  destruct (shape_last t) eqn:H1.
  - apply view_infer_torch.
  - intros [= <-]. exact (shape_last_torch t _ H1).
Qed.

Lemma pair_view_torch {A} (t : tensor A) :
  torch_only (FastR2D2CrossSentence.pair_view t).
Proof.
  unfold FastR2D2CrossSentence.pair_view. intros e.
  destruct (shape_first t) eqn:H1.
  - destruct (shape_last t) eqn:H2.
    + apply view_torch.
    + intros [= <-]. exact (shape_last_torch t _ H2).
  - intros [= <-]. exact (shape_first_torch t _ H1).
Qed.

Lemma expected_torch {world} (h : head world) training e :
  torch_error e -> expected_error h training e.
Proof. destruct e; cbn; tauto. Qed.

Ltac expected_key :=
  cbn;
  repeat match goal with
         | Hd : _ = true |- _ => rewrite Hd
         | Hd : _ = false |- _ => rewrite Hd
         end;
  cbn; tauto.

Ltac raises_step :=
  first
    [ apply raises_only_ret
    | apply raises_only_raise; cbn; tauto
    | apply raises_only_call; intros ?; exact I
    | apply raises_only_log
    | apply raises_only_getitem; expected_key
    | apply raises_only_item0; apply expected_torch
    | apply raises_only_lift_outcome; intros ?; exact I
    | apply raises_only_lift;
      [ apply expected_torch
      | first [ apply gather_torch | apply shape_first_torch
              | apply unsqueeze1_torch | apply cat1_torch
              | apply select1_0_torch | apply flatten_pairs_torch
              | apply pair_view_torch ] ]
    | apply raises_only_bind; [|intros ?] ].

Section ForwardErrors.
Context {world : Type} (env : Imports world).

Lemma forward_raises (h : head world) input_ids attention_mask num_samples
    atom_spans (labels : option (tensor Z)) force_encoding :
  raises_only (expected_error h (is_training labels))
    (forward_of env h input_ids attention_mask num_samples atom_spans labels
       force_encoding).
Proof.
  destruct h as [self|self], labels, force_encoding; cbn [forward_of];
    unfold FastR2D2Classification.forward, FastR2D2CrossSentence.forward,
      root_vectors, FastR2D2CrossSentence.pairwise_encoding, is_training;
    cbv zeta.
  all: try destruct (FastR2D2Classification.disable_parser self) eqn:Hd.
  all: try destruct (FastR2D2CrossSentence.disable_parser self) eqn:Hd.
  all: cbn [negb]; repeat raises_step.
Qed.

(** X8. What a call of [forward] can raise.  Besides what a collaborator
    raises and the errors of the tensor operations, it is a [KeyError] for
    a key the mode reads in the encoder's result - at inference only
    ['tables'] and ['tensor_cache'], never ['loss'] or ['sampled_trees'];
    in training of the single-sentence head with the parser disabled, no
    key of the sampled trees - or, at inference only, the configuration
    error. *)
Theorem X8_exceptions_of_forward (h : head world) input_ids attention_mask
    num_samples atom_spans (labels : option (tensor Z)) force_encoding
    (s s' : state world) e :
  forward_of env h input_ids attention_mask num_samples atom_spans labels
    force_encoding s = (Raise e, s') ->
  match e with
  | Exception_ _ => labels = None /\ e = config_error
  | KeyError k => In k (keys_read h (is_training labels))
  | RuntimeError _ | IndexError _ | Propagated _ => True
  end.
Proof.
  intros H. apply forward_raises in H. destruct e; try exact I; try exact H.
  destruct H as [Ht ->]. destruct labels; [discriminate|done].
Qed.

Lemma configuration_error_only_there (h : head world) input_ids
    attention_mask num_samples atom_spans labels force_encoding
    (s s' : state world) :
  forward_of env h input_ids attention_mask num_samples atom_spans labels
    force_encoding s = (Raise config_error, s') ->
  labels = None /\ force_encoding = true /\ disable_parser_of h = true /\ s' = s.
Proof.
  intros H.
  assert (forall A (m : M world A), quiet m -> m s <> (Raise config_error, s'))
    as Hquiet by (intros A m Hm Hrun; exact (Hm _ _ _ Hrun I)).
  destruct labels as [labels|].
  { exfalso. exact (Hquiet _ _ (training_quiet env h _ _ _ _ _ _) H). }
  destruct h as [self|self]; cbn [forward_of disable_parser_of] in *.
  - unfold FastR2D2Classification.forward in H.
    destruct force_encoding,
      (FastR2D2Classification.disable_parser self); cbn [negb] in H.
    + injection H as <-. done.
    + exfalso. revert H. apply Hquiet. repeat quiet_step.
    + exfalso. revert H. apply Hquiet. cbv zeta.
      repeat first [apply root_vectors_quiet | quiet_step].
    + exfalso. revert H. apply Hquiet. cbv zeta.
      repeat first [apply root_vectors_quiet | quiet_step].
  - unfold FastR2D2CrossSentence.forward in H.
    destruct force_encoding,
      (FastR2D2CrossSentence.disable_parser self); cbn [negb] in H.
    2-4: exfalso; revert H; apply Hquiet; cbv zeta;
      repeat first [apply root_vectors_quiet | apply pairwise_encoding_quiet
                   | quiet_step].
    destruct (FastR2D2CrossSentence.flatten_pairs input_ids) as [i|e1] eqn:Hi.
    + destruct (FastR2D2CrossSentence.flatten_pairs attention_mask)
        as [m|e2] eqn:Hm.
      * injection H as <-. done.
      * injection H as -> _. exfalso.
        exact (flatten_pairs_quiet attention_mask _ Hm I).
    + injection H as -> _. exfalso.
      exact (flatten_pairs_quiet input_ids _ Hi I).
Qed.

(** X7. The configuration error is raised by forced inference on a head
    whose parser is disabled and by nothing else: whenever [forward] ends
    in it, no labels were given, [force_encoding] was set, the parser is
    disabled, and the state is the one the call started in. *)
Theorem X7_configuration_error_only_there (h : head world) input_ids
    attention_mask num_samples atom_spans labels force_encoding
    (s s' : state world) :
  forward_of env h input_ids attention_mask num_samples atom_spans labels
    force_encoding s = (Raise config_error, s') ->
  labels = None /\ force_encoding = true /\ disable_parser_of h = true /\ s' = s.
Proof. exact (configuration_error_only_there h _ _ _ _ _ _ _ _). Qed.

End ForwardErrors.

(** ** What the calls of [forward] look like, however the run ends *)

Section CallShapes.
Context {world : Type} (env : Imports world).

Ltac unfold_forward :=
  cbn [forward_of];
  unfold FastR2D2Classification.forward, FastR2D2CrossSentence.forward,
    root_vectors, FastR2D2CrossSentence.pairwise_encoding;
  cbv zeta.

Lemma encoder_calls_ok (h : head world) input_ids attention_mask num_samples
    atom_spans labels force_encoding :
  logs (encoder_call_ok (is_training labels))
    (forward_of env h input_ids attention_mask num_samples atom_spans labels
       force_encoding).
Proof.
  destruct h as [self|self], labels; unfold_forward; repeat logs_step.
  all: cbn; try exact I; repeat split; discriminate.
Qed.

(** X12. Every encoder call [forward] makes, in a run that returns or in
    one that raises, passes [merge_trajectories], [recover_tree=True] and
    [keep_tensor_cache=True]; a training call also passes [sample_trees]
    and leaves the LM loss on, an inference call passes no [sample_trees]
    and [lm_loss=False]. *)
Theorem X12_encoder_calls (h : head world) input_ids attention_mask
    num_samples atom_spans labels force_encoding (s s' : state world) r :
  forward_of env h input_ids attention_mask num_samples atom_spans labels
    force_encoding s = (r, s') ->
  exists evs,
    trace s' = trace s ++ evs /\
    Forall (encoder_call_ok (is_training labels)) evs.
Proof. intros H. exact (encoder_calls_ok h _ _ _ _ _ _ _ _ _ H). Qed.

Lemma gather_calls_ok (h : head world) input_ids attention_mask num_samples
    atom_spans labels force_encoding :
  logs gather_call_ok
    (forward_of env h input_ids attention_mask num_samples atom_spans labels
       force_encoding).
Proof.
  destruct h as [self|self], labels; unfold_forward; repeat logs_step.
  all: cbn; done.
Qed.

(** X13. The tensor cache is read for the [E_IJ] slot and for no other:
    every gather of every run of either head asks for [[E_IJ]]. *)
Theorem X13_only_E_IJ_is_gathered (h : head world) input_ids attention_mask
    num_samples atom_spans labels force_encoding (s s' : state world) r :
  forward_of env h input_ids attention_mask num_samples atom_spans labels
    force_encoding s = (r, s') ->
  exists evs, trace s' = trace s ++ evs /\ Forall gather_call_ok evs.
Proof. intros H. exact (gather_calls_ok h _ _ _ _ _ _ _ _ _ H). Qed.

Lemma single_sentence_tokens (self : FastR2D2Classification.t world)
    input_ids attention_mask num_samples atom_spans labels force_encoding :
  logs (carries input_ids attention_mask)
    (FastR2D2Classification.forward env self input_ids attention_mask
       num_samples atom_spans labels force_encoding).
Proof.
  destruct labels; unfold FastR2D2Classification.forward, root_vectors;
    cbv zeta; repeat logs_step.
  all: intros p; cbn; intros [= <-]; reflexivity.
Qed.

(** X14. The single-sentence head hands its two input tensors on as they
    are: whatever the parser, the encoder and [force_encode] are called
    with, in any run, is the caller's [input_ids] and [attention_mask]. *)
Theorem X14_single_sentence_tokens (self : FastR2D2Classification.t world)
    input_ids attention_mask num_samples atom_spans labels force_encoding
    (s s' : state world) r :
  FastR2D2Classification.forward env self input_ids attention_mask
    num_samples atom_spans labels force_encoding s = (r, s') ->
  exists evs,
    trace s' = trace s ++ evs /\
    Forall (fun e => forall p, tokens_of e = Some p ->
                               p = (input_ids, attention_mask)) evs.
Proof. intros H. exact (single_sentence_tokens self _ _ _ _ _ _ _ _ _ H). Qed.

Lemma forced_inference_calls (h : head world) input_ids attention_mask
    num_samples atom_spans :
  logs (fun e => is_encoder_call e = false /\ is_parser_call e = false /\
                 is_gather_call e = false)
    (forward_of env h input_ids attention_mask num_samples atom_spans None true).
Proof.
  destruct h as [self|self]; unfold_forward; cbn [negb]; repeat logs_step.
  all: cbn; done.
Qed.

(** X11. Forced inference bypasses the table path: in every run with no
    labels and [force_encoding] set, [forward] itself calls neither the
    encoder nor the parser and never reads a tensor cache. *)
Theorem X11_forced_inference_bypasses_tables (h : head world) input_ids
    attention_mask num_samples atom_spans (s s' : state world) r :
  forward_of env h input_ids attention_mask num_samples atom_spans None true s
  = (r, s') ->
  exists evs,
    trace s' = trace s ++ evs /\
    Forall (fun e => is_encoder_call e = false /\ is_parser_call e = false /\
                     is_gather_call e = false) evs.
Proof. intros H. exact (forced_inference_calls h _ _ _ _ _ _ _ H). Qed.

Lemma no_parser_call (h : head world) input_ids attention_mask num_samples
    atom_spans labels force_encoding :
  disable_parser_of h = true ->
  is_single h || negb (is_training labels) = true ->
  logs (fun e => is_parser_call e = false)
    (forward_of env h input_ids attention_mask num_samples atom_spans labels
       force_encoding).
Proof.
  destruct h as [self|self], labels; cbn [disable_parser_of is_single
    is_training negb orb]; intros Hd Hm; try discriminate;
    unfold_forward; rewrite Hd; cbn [negb]; repeat logs_step.
  all: cbn; done.
Qed.

(** X16. With [disable_parser] set, the single-sentence head never calls
    the parser, in training or at inference, and the cross-sentence head
    never calls it at inference - whether the run returns or raises. *)
Theorem X16_disabled_parser_is_not_called (h : head world) input_ids
    attention_mask num_samples atom_spans labels force_encoding
    (s s' : state world) r :
  disable_parser_of h = true ->
  is_single h || negb (is_training labels) = true ->
  forward_of env h input_ids attention_mask num_samples atom_spans labels
    force_encoding s = (r, s') ->
  exists evs,
    trace s' = trace s ++ evs /\
    Forall (fun e => is_parser_call e = false) evs.
Proof. intros Hd Hm H. exact (no_parser_call h _ _ _ _ _ _ Hd Hm _ _ _ H). Qed.

End CallShapes.

(** ** The calls of a training step, the range of the probabilities *)

Section TrainingCalls.
Context {world : Type} (env : Imports world).

(** X10. The collaborator calls of a training step that returns: one
    encoder call, one gather, one [force_encode] call and two
    classifications - for the cross-sentence head each with its own
    embedding lookup and tree-decoder pass; two parser calls when the
    parser is enabled, and with it disabled none for the single-sentence
    head but still one for the cross-sentence head. *)
Theorem X10_calls_of_a_training_step (h : head world) input_ids
    attention_mask num_samples atom_spans labels force_encoding
    (s s' : state world) out :
  forward_of env h input_ids attention_mask num_samples atom_spans
    (Some labels) force_encoding s = (Ok out, s') ->
  exists evs,
    trace s' = trace s ++ evs /\
    count is_encoder_call evs = 1 /\
    count is_gather_call evs = 1 /\
    count is_force_encode_call evs = 1 /\
    count is_classifier_call evs = 2 /\
    count is_embedding_call evs = (if is_single h then 0 else 2) /\
    count is_tree_decoder_call evs = (if is_single h then 0 else 2) /\
    count is_parser_call evs
    = (if disable_parser_of h then (if is_single h then 0 else 1) else 2).
Proof.
  destruct h as [self|self]; cbn [forward_of is_single disable_parser_of];
    intros H.
  - apply classification_training_run in H
      as (s_indices & results & ids & e1 & logits1 & ce & bilm & kl_evs & kl
          & e2 & logits2 & fel & Htr & Hpar & _).
    eexists. split; [exact Htr|].
    destruct (FastR2D2Classification.disable_parser self).
    + destruct Hpar as (-> & -> & _). repeat split.
    + destruct Hpar as (g & masks & points & -> & _ & ->). repeat split.
  - apply cross_sentence_training_run in H
      as (flat_ids & flat_mask & s_indices & results & ids & e1 & pairs1
          & logits1 & evs1 & ce & bilm & masks & points & kl & e2 & pairs2
          & logits2 & evs2 & fel & _ & _ & Htr & Hpar & _ & _ & Hev1
          & _ & _ & _ & _ & _ & Hev2 & _).
    destruct Hev1 as (? & ? & ? & ? & ? & ? & _ & _ & _ & _ & ->).
    destruct Hev2 as (? & ? & ? & ? & ? & ? & _ & _ & _ & _ & ->).
    eexists. split; [exact Htr|].
    destruct (FastR2D2CrossSentence.disable_parser self).
    + subst s_indices. repeat split.
    + destruct Hpar as (g & ->). repeat split.
Qed.

End TrainingCalls.




Section Probabilities.
Context {world : Type} (env : Imports world).


End Probabilities.

(** ** The classifier of a constructed head *)

Lemma prod_list_app (a b : list nat) :
  prod_list (a ++ b) = prod_list a * prod_list b.
Proof.
  unfold prod_list. induction a as [|x a IH]; cbn [app foldr]; [lia|].
  rewrite IH. lia.
Qed.

Lemma linear_row_length (i o : nat) (p : LinearParams) (x : list R) :
  linear_ok i o p -> length (linear_row p x) = o.
Proof.
  intros (Hw & _ & Hb). unfold linear_row.
  rewrite length_zip_with, Hw, Hb. lia.
Qed.


Lemma linear_Ok (i o : nat) (p : LinearParams) (x : tensor R) (pre : list nat) :
  shape x = pre ++ [i] -> linear_ok i o p ->
  exists y, linear i o p x = Ok y /\ shape y = pre ++ [o] /\ well_formed y.
Proof.
  intros Hs Hp. unfold linear. rewrite Hs, last_snoc, Nat.eqb_refl.
  rewrite removelast_last. eexists. split; [reflexivity|]. split; [done|].
  unfold well_formed, numel. cbn [shape data].
  rewrite (concat_uniform_length o).
  - rewrite length_fmap, chunks_length, prod_list_app.
    unfold prod_list. cbn [foldr]. lia.
  - apply Forall_fmap, Forall_forall. intros row _. cbn.
    apply (linear_row_length i). done.
Qed.

Lemma linear_wrong_width (i o d : nat) (p : LinearParams) (x : tensor R) :
  last (shape x) = Some d -> d <> i ->
  linear i o p x = Raise (RuntimeError "mat1 and mat2 shapes cannot be multiplied").
Proof.
  intros Hl Hd. unfold linear. rewrite Hl.
  destruct (Nat.eqb_spec d i); [done|reflexivity].
Qed.

Section Sequential.
Context {world : Type} (lib : Library world).


Lemma sequential_Ok (config : Config.t) (label_num : nat) (x : tensor R)
    (pre : list nat) (w : world) :
  shape x = pre ++ [Config.hidden_size config] ->
  classifier_ok config label_num (classifier_state lib w) ->
  exists y w',
    sequential lib config label_num x w = (Returned y, w') /\
    shape y = pre ++ [label_num] /\
    well_formed y /\
    (training (classifier_state lib w) = false -> w' = w).
Proof.
  intros Hs [H1 H2]. unfold sequential.
  destruct (linear_Ok _ _ _ x pre Hs H1) as (h1 & -> & Hs1 & _).
  destruct (training (classifier_state lib w)).
  - destruct (dropout_mask lib w) as [keep w1].
    destruct (linear_Ok _ _ _
                (dropout true (Config.hidden_dropout_prob config) keep
                   (Tensor (shape h1) (gelu lib <$> data h1))) pre Hs1 H2)
      as (y & -> & Hsy & Hwy).
    exists y, w1. repeat split; done.
  - destruct (linear_Ok _ _ _
                (dropout false (Config.hidden_dropout_prob config) (fun _ => true)
                   (Tensor (shape h1) (gelu lib <$> data h1))) pre Hs1 H2)
      as (y & -> & Hsy & Hwy).
    exists y, w. repeat split; done.
Qed.

Lemma sequential_wrong_width (config : Config.t) (label_num d : nat)
    (x : tensor R) (w : world) :
  last (shape x) = Some d -> d <> Config.hidden_size config ->
  sequential lib config label_num x w
  = (Failed "mat1 and mat2 shapes cannot be multiplied", w).
Proof.
  intros Hl Hd. unfold sequential.
  rewrite (linear_wrong_width _ _ d _ x Hl Hd). reflexivity.
Qed.

Lemma built_classifier config label_num disable (h : head world) :
  built_by lib config label_num disable h ->
  classifier_of h = sequential lib config label_num.
Proof.
  destruct h as [self|self]; cbn [built_by classifier_of];
    unfold init_classification, init_cross_sentence;
    destruct (dropout_prob_ok _); intros [= <-]; reflexivity.
Qed.

Lemma built_disable_parser config label_num disable (h : head world) :
  built_by lib config label_num disable h ->
  disable_parser_of h = default false disable.
Proof.
  destruct h as [self|self]; cbn [built_by disable_parser_of];
    unfold init_classification, init_cross_sentence;
    destruct (dropout_prob_ok _); intros [= <-]; reflexivity.
Qed.

(** X18. The classifier of a head built by [__init__], on parameters of
    the shapes they were built with: a tensor whose last dimension is
    [config.hidden_size] is mapped to a well-formed tensor of logits with
    the same leading dimensions and [label_num] as the last one; in
    evaluation mode no dropout mask is drawn and the world is left as it
    was. *)
Theorem X18_logits_of_a_built_head config label_num disable (h : head world)
    (x : tensor R) (pre : list nat) (w : world) :
  built_by lib config label_num disable h ->
  shape x = pre ++ [Config.hidden_size config] ->
  classifier_ok config label_num (classifier_state lib w) ->
  exists y w',
    classifier_of h x w = (Returned y, w') /\
    shape y = pre ++ [label_num] /\
    well_formed y /\
    (training (classifier_state lib w) = false -> w' = w).
Proof.
  intros Hb Hs Hok. rewrite (built_classifier _ _ _ _ Hb).
  exact (sequential_Ok config label_num x pre w Hs Hok).
Qed.

(** X19. The classifier of a built head refuses a tensor whose last
    dimension is not [config.hidden_size]: the first linear layer fails,
    nothing is drawn and the world is left as it was. *)
Theorem X19_classifier_refuses_other_widths config label_num disable
    (h : head world) (x : tensor R) (d : nat) (w : world) :
  built_by lib config label_num disable h ->
  last (shape x) = Some d -> d <> Config.hidden_size config ->
  classifier_of h x w
  = (Failed "mat1 and mat2 shapes cannot be multiplied", w).
Proof.
  intros Hb Hl Hd. rewrite (built_classifier _ _ _ _ Hb).
  exact (sequential_wrong_width config label_num d x w Hl Hd).
Qed.

End Sequential.

(** ** Built heads at work *)


Section BuiltHeads.
Context {world : Type} (env : Imports world) (lib : Library world).


(** X20. A head built without the [disable_parser] argument has its
    parser enabled, so no call of its [forward] - training or inference,
    forced or not - ends in the configuration error. *)
Theorem X20_default_head_has_no_configuration_error config label_num
    (h : head world) input_ids attention_mask num_samples atom_spans labels
    force_encoding (s s' : state world) r :
  built_by lib config label_num None h ->
  forward_of env h input_ids attention_mask num_samples atom_spans labels
    force_encoding s = (r, s') ->
  disable_parser_of h = false /\ r <> Raise config_error.
Proof.
  intros Hb H. pose proof (built_disable_parser lib _ _ _ _ Hb) as Hd.
  cbn in Hd. split; [done|]. intros ->.
  apply configuration_error_only_there in H as (_ & _ & Hd' & _).
  congruence.
Qed.


End BuiltHeads.

(** * The further properties at work on the stand-ins *)

Lemma X2_witness :
  FastR2D2CrossSentence.forward Stub.the_imports (Stub.cross false)
    Stub.ids_pair Stub.mask_pair 0 None None false Stub.start
  = FastR2D2CrossSentence.forward Stub.the_imports (Stub.cross false)
      Stub.ids2 Stub.mask2 0 None None false Stub.start.
Proof.
  eapply (X2_flat_input_accepted Stub.the_imports (Stub.cross false)
            Stub.ids_pair Stub.mask_pair 0 None None false
            Stub.ids2 Stub.mask2 Stub.start).
  - reflexivity.
  - reflexivity.
Defined.


Lemma X4_witness :
  FastR2D2CrossSentence.pair_view StubMore.three_rows
  = Raise (RuntimeError "shape is invalid for input size").
Proof.
  eapply (X4_pair_view_needs_even_rows StubMore.three_rows 3 2).
  reflexivity.
Defined.

Lemma X5_witness :
  FastR2D2CrossSentence.forward StubMore.odd_imports (Stub.cross false)
    Stub.ids_pair Stub.mask_pair 0 None None true Stub.start
  = (Raise (RuntimeError "shape is invalid for input size"),
     State 1 (trace Stub.start
              ++ [EvForceEncode Stub.ids2 Stub.mask2 None
                    (Returned StubMore.three_rows)])).
Proof.
  eapply (X5_odd_rows_cannot_be_paired StubMore.odd_imports (Stub.cross false)
            Stub.ids_pair Stub.mask_pair 0 None Stub.ids2 Stub.mask2
            StubMore.three_rows 3 2 Stub.start 1).
  - reflexivity.
  - reflexivity.
  - reflexivity.
  - reflexivity.
  - reflexivity.
  - reflexivity.
  - lia.
Defined.


Lemma X7_witness :
  (None : option (tensor Z)) = None /\ true = true /\
  disable_parser_of (Cross (Stub.cross true)) = true /\
  Stub.start = Stub.start.
Proof.
  eapply (X7_configuration_error_only_there Stub.the_imports
            (Cross (Stub.cross true)) Stub.ids_pair Stub.mask_pair 0 None
            None true Stub.start Stub.start).
  vm_compute. reflexivity.
Defined.

Lemma X8_witness :
  exists s',
    forward_of Stub.the_imports (Cross StubMore.bare_cross)
      Stub.ids_pair Stub.mask_pair 1 None (Some Stub.labels1) false Stub.start
    = (Raise (KeyError "sampled_trees"), s') /\
    In "sampled_trees"
      (keys_read (Cross StubMore.bare_cross) (is_training (Some Stub.labels1))).
Proof.
  eexists. split; [vm_compute; reflexivity|].
  eapply (X8_exceptions_of_forward Stub.the_imports (Cross StubMore.bare_cross)
            Stub.ids_pair Stub.mask_pair 1 None (Some Stub.labels1) false
            Stub.start _ (KeyError "sampled_trees")).
  vm_compute. reflexivity.
Defined.

Lemma X9_witness :
  FastR2D2CrossSentence.forward Stub.the_imports StubMore.bare_cross
    Stub.ids_pair Stub.mask_pair 1 None (Some Stub.labels1) false Stub.start
  = (Raise (KeyError "sampled_trees"),
     State 1 (trace Stub.start
              ++ [EvEncoder Stub.ids2 Stub.mask2
                    {| merge_trajectories := Some None;
                       sample_trees := Some 1%Z;
                       recover_tree := Some true;
                       keep_tensor_cache := Some true;
                       lm_loss := Some true |}
                    (Returned StubMore.bare_results)])).
Proof.
  eapply (X9_cross_sentence_training_needs_samples Stub.the_imports
            StubMore.bare_cross Stub.ids_pair Stub.mask_pair 1 None
            Stub.labels1 false Stub.ids2 Stub.mask2 StubMore.bare_results
            Stub.the_tables Stub.the_cache Stub.start 1).
  all: reflexivity.
Defined.

Lemma X10_witness :
  exists out s',
    forward_of Stub.the_imports (Cross (Stub.cross true))
      Stub.ids_pair Stub.mask_pair 1 None (Some Stub.labels1) false Stub.start
    = (Ok out, s') /\
    exists evs,
      trace s' = trace Stub.start ++ evs /\
      count is_encoder_call evs = 1 /\
      count is_gather_call evs = 1 /\
      count is_force_encode_call evs = 1 /\
      count is_classifier_call evs = 2 /\
      count is_embedding_call evs
      = (if is_single (Cross (Stub.cross true)) then 0 else 2) /\
      count is_tree_decoder_call evs
      = (if is_single (Cross (Stub.cross true)) then 0 else 2) /\
      count is_parser_call evs
      = (if disable_parser_of (Cross (Stub.cross true))
         then (if is_single (Cross (Stub.cross true)) then 0 else 1) else 2).
Proof.
  do 2 eexists. split; [vm_compute; reflexivity|].
  eapply (X10_calls_of_a_training_step Stub.the_imports
            (Cross (Stub.cross true)) Stub.ids_pair Stub.mask_pair 1 None
            Stub.labels1 false Stub.start).
  vm_compute. reflexivity.
Defined.

Lemma X11_witness :
  exists r s',
    forward_of Stub.the_imports (Cross (Stub.cross false))
      Stub.ids_pair Stub.mask_pair 0 None None true Stub.start = (r, s') /\
    exists evs,
      trace s' = trace Stub.start ++ evs /\
      Forall (fun e => is_encoder_call e = false /\ is_parser_call e = false /\
                       is_gather_call e = false) evs.
Proof.
  do 2 eexists. split; [vm_compute; reflexivity|].
  eapply (X11_forced_inference_bypasses_tables Stub.the_imports
            (Cross (Stub.cross false)) Stub.ids_pair Stub.mask_pair 0 None
            Stub.start).
  vm_compute. reflexivity.
Defined.

Lemma X12_witness :
  exists r s',
    forward_of Stub.the_imports (Single (Stub.single false))
      Stub.ids2 Stub.mask2 1 None (Some Stub.labels2) false Stub.start
    = (r, s') /\
    exists evs,
      trace s' = trace Stub.start ++ evs /\
      Forall (encoder_call_ok (is_training (Some Stub.labels2))) evs.
Proof.
  do 2 eexists. split; [vm_compute; reflexivity|].
  eapply (X12_encoder_calls Stub.the_imports (Single (Stub.single false))
            Stub.ids2 Stub.mask2 1 None (Some Stub.labels2) false Stub.start).
  vm_compute. reflexivity.
Defined.

Lemma X13_witness :
  exists r s',
    forward_of Stub.the_imports (Single (Stub.single false))
      Stub.ids2 Stub.mask2 0 None None false Stub.start = (r, s') /\
    exists evs, trace s' = trace Stub.start ++ evs /\ Forall gather_call_ok evs.
Proof.
  do 2 eexists. split; [vm_compute; reflexivity|].
  eapply (X13_only_E_IJ_is_gathered Stub.the_imports (Single (Stub.single false))
            Stub.ids2 Stub.mask2 0 None None false Stub.start).
  vm_compute. reflexivity.
Defined.

Lemma X14_witness :
  exists r s',
    FastR2D2Classification.forward Stub.the_imports (Stub.single false)
      Stub.ids2 Stub.mask2 1 None (Some Stub.labels2) false Stub.start
    = (r, s') /\
    exists evs,
      trace s' = trace Stub.start ++ evs /\
      Forall (fun e => forall p, tokens_of e = Some p ->
                                 p = (Stub.ids2, Stub.mask2)) evs.
Proof.
  do 2 eexists. split; [vm_compute; reflexivity|].
  eapply (X14_single_sentence_tokens Stub.the_imports (Stub.single false)
            Stub.ids2 Stub.mask2 1 None (Some Stub.labels2) false Stub.start).
  vm_compute. reflexivity.
Defined.

Lemma X15_witness :
  FastR2D2CrossSentence.pairwise_encoding (Stub.cross false)
    StubMore.wide_pairs Stub.start
  = (Raise (RuntimeError "Sizes of tensors must match except in dimension 1"),
     State 1 (trace Stub.start
              ++ [EvEmbedding (full 1 9)
                    (Returned (Tensor [1; 2] [0%R; 0%R]))])).
Proof.
  eapply (X15_pairwise_width_mismatch (Stub.cross false) StubMore.wide_pairs
            (Tensor [1; 2] [0%R; 0%R]) 1 3 2 Stub.start 1).
  - reflexivity.
  - reflexivity.
  - reflexivity.
  - lia.
Defined.

Lemma X16_witness :
  exists r s',
    forward_of Stub.the_imports (Single (Stub.single true))
      Stub.ids2 Stub.mask2 1 None (Some Stub.labels2) false Stub.start
    = (r, s') /\
    exists evs,
      trace s' = trace Stub.start ++ evs /\
      Forall (fun e => is_parser_call e = false) evs.
Proof.
  do 2 eexists. split; [vm_compute; reflexivity|].
  eapply (X16_disabled_parser_is_not_called Stub.the_imports
            (Single (Stub.single true)) Stub.ids2 Stub.mask2 1 None
            (Some Stub.labels2) false Stub.start).
  - reflexivity.
  - reflexivity.
  - vm_compute. reflexivity.
Defined.


Lemma X18_witness :
  exists y w',
    classifier_of (Single StubMore.built_single) Stub.pooled 0 = (Returned y, w') /\
    shape y = [2] ++ [2] /\
    well_formed y /\
    (training (classifier_state StubMore.the_library 0) = false -> w' = 0).
Proof.
  eapply (X18_logits_of_a_built_head StubMore.the_library StubMore.the_config
            2 None (Single StubMore.built_single) Stub.pooled [2] 0).
  - reflexivity.
  - reflexivity.
  - repeat split; repeat constructor.
Defined.

Lemma X19_witness :
  classifier_of (Single StubMore.built_single) StubMore.narrow 0
  = (Failed "mat1 and mat2 shapes cannot be multiplied", 0).
Proof.
  eapply (X19_classifier_refuses_other_widths StubMore.the_library
            StubMore.the_config 2 None (Single StubMore.built_single)
            StubMore.narrow 3 0).
  - reflexivity.
  - reflexivity.
  - cbn. lia.
Defined.

Lemma X20_witness :
  exists r s',
    forward_of Stub.the_imports (Single StubMore.built_single)
      Stub.ids2 Stub.mask2 0 None None true Stub.start = (r, s') /\
    disable_parser_of (Single StubMore.built_single) = false /\
    r <> Raise config_error.
Proof.
  do 2 eexists. split; [vm_compute; reflexivity|].
  eapply (X20_default_head_has_no_configuration_error Stub.the_imports
            StubMore.the_library StubMore.the_config 2
            (Single StubMore.built_single) Stub.ids2 Stub.mask2 0 None None
            true Stub.start).
  - reflexivity.
  - vm_compute. reflexivity.
Defined.

